(** * Screenshot API: URL/viewport validation, capture lifecycle, error mapping

    A shallow embedding of the JavaScript sources
      - [validator.js]            (validateUrl, validateViewport, isFullPage),
      - [screenshot.js]           (captureScreenshot),
      - [middleware/rapidapi.js]  (validateRapidAPI, getSubscriptionLimits;
                                   two revisions of the file are in the tree),
      - [index.js]                (the /screenshot and /v1/screenshot handlers),
    followed by the properties stated in the specification.

    JavaScript strings are modelled by [string]; a character is read as a
    code unit below 256.  A JavaScript number is modelled by [num]: NaN or
    an integer.  The [URL] constructor of the runtime and the rendering
    engine are parameters of the functions that call them. *)

From Stdlib Require Import String Ascii List ZArith NArith Lia Bool.
From Stdlib Require Import DecimalString.
Import ListNotations.

Local Open Scope string_scope.

(* ====================================================================== *)
(** * JavaScript primitives used by the sources *)
(* ====================================================================== *)

Module JS.

(** A value read from [req.query] or [req.headers]: absent, a string, or
    a non-string value (an array or an object built by the query parser),
    the latter carried with its [ToString] image. *)
Inductive value :=
| Undefined
| Str (s : string)
| Other (to_string : string).

(** [ToString] as applied by [parseInt] to its first argument. *)
Definition ToString (v : value) : string :=
  match v with
  | Undefined => "undefined"
  | Str s => s
  | Other s => s
  end.

(** A number that may be NaN. *)
Inductive num :=
| NaN
| Int (z : Z).

Definition code (c : ascii) : N := N_of_ascii c.

Definition between (lo hi : N) (c : ascii) : bool :=
  ((lo <=? code c) && (code c <=? hi))%N.

(** ASCII decimal digit: the class [\d] of a non-unicode RegExp, and the
    digits accepted by [parseInt] in radix 10. *)
Definition is_digit (c : ascii) : bool := between 48 57 c.

(** [String.prototype.toLowerCase] on code units below 256: A-Z and the
    Latin-1 capitals (all of U+00C0..U+00DE but the multiplication sign)
    move up by 32. *)
Definition lower_char (c : ascii) : ascii :=
  if between 65 90 c || (between 192 222 c && negb (code c =? 215)%N)
  then ascii_of_N (code c + 32)
  else c.

Fixpoint toLowerCase (s : string) : string :=
  match s with
  | EmptyString => EmptyString
  | String c t => String (lower_char c) (toLowerCase t)
  end.

(** [s.startsWith(p)] *)
Definition startsWith (s p : string) : bool := String.prefix p s.

(** [s.endsWith(p)] *)
Definition endsWith (s p : string) : bool :=
  (String.length p <=? String.length s)%nat &&
  String.eqb (String.substring (String.length s - String.length p)
                               (String.length p) s) p.

(** [s.slice(1, -1)] *)
Definition slice_1_m1 (s : string) : string :=
  String.substring 1 (String.length s - 2) s.

(** [s.includes(p)] *)
Fixpoint includes (s p : string) : bool :=
  String.prefix p s ||
  match s with
  | EmptyString => false
  | String _ t => includes t p
  end.

(** [Array.prototype.includes] on an array of strings. *)
Definition array_includes (a : list string) (s : string) : bool :=
  existsb (String.eqb s) a.

(** White space skipped by [parseInt] before the sign (code units below
    256: TAB, LF, VT, FF, CR, SP, NBSP). *)
Definition is_space (c : ascii) : bool :=
  between 9 13 c || (code c =? 32)%N || (code c =? 160)%N.

Fixpoint trim_start (s : string) : string :=
  match s with
  | String c t => if is_space c then trim_start t else s
  | EmptyString => s
  end.

Definition digit_value (c : ascii) : Z := (Z.of_N (code c) - 48)%Z.

(** The digits of the longest decimal prefix of [s], folded from the left:
    [None] when [s] does not start with a digit. *)
Fixpoint digits (acc : option Z) (s : string) : option Z :=
  match s with
  | String c t =>
      if is_digit c
      then digits (Some (10 * match acc with Some a => a | None => 0 end
                         + digit_value c)%Z) t
      else acc
  | EmptyString => acc
  end.

(** [parseInt(v, 10)].  The exact integer stands for the double the engine
    returns: every caller below clamps the result between 200 and 3000,
    which the rounding of integers beyond 2^53 (or to Infinity) cannot
    change. *)
Definition parseInt10 (v : value) : num :=
  let s := trim_start (ToString v) in
  let '(neg, body) :=
    match s with
    | String "-" t => (true, t)
    | String "+" t => (false, t)
    | _ => (false, s)
    end in
  match digits None body with
  | None => NaN
  | Some z => Int (if neg then (- z)%Z else z)
  end.

Definition isNaN (n : num) : bool :=
  match n with NaN => true | Int _ => false end.

(** [Math.min] and [Math.max] of two arguments: NaN is contagious. *)
Definition Math_min (a b : num) : num :=
  match a, b with
  | Int x, Int y => Int (Z.min x y)
  | _, _ => NaN
  end.

Definition Math_max (a b : num) : num :=
  match a, b with
  | Int x, Int y => Int (Z.max x y)
  | _, _ => NaN
  end.

(** [a || b] on numbers: NaN and zero are falsy. *)
Definition num_or (a b : num) : num :=
  match a with
  | NaN => b
  | Int z => if (z =? 0)%Z then b else a
  end.

(** Truthiness of a string: only the empty string is falsy. *)
Definition truthy_string (s : string) : bool :=
  negb (String.eqb s "").

End JS.

(* ====================================================================== *)
(** * Regular expressions of the validator *)
(* ====================================================================== *)

Module Regex.

(** The fragment of RegExp syntax that [PRIVATE_IP_RANGES] uses: literal
    characters, [\d], character ranges, sequence, alternation and bounded
    repetition.  Each pattern of the source is anchored at both ends. *)
Inductive regex :=
| Eps
| Chr (c : ascii)
| Digit
| Range (lo hi : ascii)
| Seq (r1 r2 : regex)
| Alt (r1 r2 : regex).

(** Remainders of [s] after every prefix of [s] that [r] can consume. *)
Fixpoint run (r : regex) (s : string) : list string :=
  match r with
  | Eps => [s]
  | Chr c =>
      match s with
      | String c' t => if Ascii.eqb c c' then [t] else []
      | EmptyString => []
      end
  | Digit =>
      match s with
      | String c' t => if JS.is_digit c' then [t] else []
      | EmptyString => []
      end
  | Range lo hi =>
      match s with
      | String c' t => if JS.between (JS.code lo) (JS.code hi) c' then [t] else []
      | EmptyString => []
      end
  | Seq r1 r2 => flat_map (run r2) (run r1 s)
  | Alt r1 r2 => (run r1 s ++ run r2 s)%list
  end.

(** [/^r$/.test(s)] *)
Definition test (r : regex) (s : string) : bool :=
  existsb (String.eqb "") (run r s).

(** [r] matches the whole of [s]. *)
Definition accepts (r : regex) (s : string) : Prop := In "" (run r s).

(** A literal string. *)
Fixpoint lit (s : string) : regex :=
  match s with
  | EmptyString => Eps
  | String c t => Seq (Chr c) (lit t)
  end.

(** [r{0,n}] *)
Fixpoint upto (n : nat) (r : regex) : regex :=
  match n with
  | O => Eps
  | S k => Alt Eps (Seq r (upto k r))
  end.

(** [\d{1,3}] *)
Definition d13 : regex := Seq Digit (upto 2 Digit).

(** [\.] *)
Definition dot : regex := Chr ".".

Fixpoint seqs (rs : list regex) : regex :=
  match rs with
  | [] => Eps
  | r :: k => Seq r (seqs k)
  end.

End Regex.

(* ====================================================================== *)
(** * validator.js *)
(* ====================================================================== *)

Module Validator.

Import Regex.

(** The fields of a WHATWG [URL] object that the validator reads. *)
Record URL := mkURL {
  protocol : string;
  hostname : string;
  href : string
}.

Definition PRIVATE_IP_RANGES : list regex :=
  [ (* /^10\.\d{1,3}\.\d{1,3}\.\d{1,3}$/ *)
    seqs [lit "10"; dot; d13; dot; d13; dot; d13];
    (* /^172\.(1[6-9]|2\d|3[0-1])\.\d{1,3}\.\d{1,3}$/ *)
    seqs [lit "172"; dot;
          Alt (Seq (Chr "1") (Range "6" "9"))
              (Alt (Seq (Chr "2") Digit) (Seq (Chr "3") (Range "0" "1")));
          dot; d13; dot; d13];
    (* /^192\.168\.\d{1,3}\.\d{1,3}$/ *)
    seqs [lit "192"; dot; lit "168"; dot; d13; dot; d13];
    (* /^169\.254\.\d{1,3}\.\d{1,3}$/ *)
    seqs [lit "169"; dot; lit "254"; dot; d13; dot; d13];
    (* /^127\.\d{1,3}\.\d{1,3}\.\d{1,3}$/ *)
    seqs [lit "127"; dot; d13; dot; d13; dot; d13] ].

Definition BLOCKED_HOSTNAMES : list string :=
  ["localhost"; "127.0.0.1"; "::1"; "[::1]"].

Definition isPrivateIP (ip : string) : bool :=
  existsb (fun regex => test regex ip) PRIVATE_IP_RANGES.

(** [{ valid: false, error }] or [{ valid: true, url }] *)
Inductive validation :=
| Invalid (error : string)
| Valid (url : string).

Definition ERR_REQUIRED := "URL parameter is required".
Definition ERR_FORMAT := "Invalid URL format".
Definition ERR_PROTOCOL := "Only http and https protocols are allowed".
Definition ERR_BLOCKED := "localhost and loopback addresses are not allowed".
Definition ERR_PRIVATE_IP := "Private IP addresses are not allowed".
Definition ERR_PRIVATE_IPV6 := "Private IPv6 addresses are not allowed".

(** The test of the IPv6 branch on the lower-cased hostname. *)
Definition isPrivateIPv6 (hostname : string) : bool :=
  JS.startsWith hostname "[" && JS.endsWith hostname "]" &&
  let ipv6 := JS.slice_1_m1 hostname in
  (String.eqb ipv6 "::1" || JS.startsWith ipv6 "fe80:"
   || JS.startsWith ipv6 "fc" || JS.startsWith ipv6 "fd").

Section WithParser.

(** [new URL(s)] of the runtime: [None] when the constructor throws. *)
Variable parseURL : string -> option URL.

Definition validateUrl (url : JS.value) : validation :=
  match url with
  | JS.Undefined | JS.Other _ => Invalid ERR_REQUIRED
  | JS.Str s =>
      if negb (JS.truthy_string s) then Invalid ERR_REQUIRED else
      match parseURL s with
      | None => Invalid ERR_FORMAT
      | Some parsedUrl =>
          if negb (JS.array_includes ["http:"; "https:"] (protocol parsedUrl))
          then Invalid ERR_PROTOCOL else
          let hostname := JS.toLowerCase (hostname parsedUrl) in
          if JS.array_includes BLOCKED_HOSTNAMES hostname
          then Invalid ERR_BLOCKED else
          if isPrivateIP hostname
          then Invalid ERR_PRIVATE_IP else
          if isPrivateIPv6 hostname
          then Invalid ERR_PRIVATE_IPV6 else
          Valid (href parsedUrl)
      end
  end.

End WithParser.

Record viewport := mkViewport { width : JS.num; height : JS.num }.

Definition MIN_SIZE : Z := 200.
Definition MAX_SIZE : Z := 3000.
Definition DEFAULT_WIDTH : Z := 1366.
Definition DEFAULT_HEIGHT : Z := 768.

Definition validateViewport (width height : JS.value) : viewport :=
  let w := JS.parseInt10 width in
  let h := JS.parseInt10 height in
  let w := if JS.isNaN w then JS.Int DEFAULT_WIDTH else w in
  let h := if JS.isNaN h then JS.Int DEFAULT_HEIGHT else h in
  let w := JS.Math_max (JS.Int MIN_SIZE) (JS.Math_min (JS.Int MAX_SIZE) w) in
  let h := JS.Math_max (JS.Int MIN_SIZE) (JS.Math_min (JS.Int MAX_SIZE) h) in
  mkViewport w h.

(** [isFullPage]: a query value is never a boolean, so the [typeof]
    branch of the source is not reachable from a request. *)
Definition isFullPage (v : JS.value) : bool :=
  match v with
  | JS.Undefined => false
  | JS.Str s => String.eqb s "true" || String.eqb s "1"
  | JS.Other _ => false
  end.

End Validator.

(* ====================================================================== *)
(** * screenshot.js *)
(* ====================================================================== *)

Module Screenshot.

Definition NAVIGATION_TIMEOUT : Z := 30000.
Definition SCREENSHOT_TIMEOUT : Z := 30000.

(** The calls that [captureScreenshot] makes on the rendering engine. *)
Inductive call :=
| Launch
| NewContext (width height : JS.num)
| NewPage
| SetDefaultNavigationTimeout (ms : Z)
| SetDefaultTimeout (ms : Z)
| Goto (url : string) (timeout : Z)
| TakeScreenshot (fullPage : bool) (timeout : Z)
| Close.

(** The engine as seen from the caller: which calls throw (and with what
    message), and the bytes a successful capture returns. *)
Record engine := mkEngine {
  throws : call -> option string;
  png : string
}.

(** The calls made so far, oldest first, and the local variable
    [browser] ([false] for [null]). *)
Record state := mkState {
  calls : list call;
  browser : bool
}.

Definition init : state := mkState [] false.

(** Computations that read and extend the state and may throw. *)
Definition M (A : Type) : Type := state -> state * (string + A).

Definition ret {A} (a : A) : M A := fun st => (st, inr a).

Definition bind {A B} (m : M A) (k : A -> M B) : M B :=
  fun st =>
    match m st with
    | (st', inl e) => (st', inl e)
    | (st', inr a) => k a st'
    end.

Notation "x <- m ;; k" := (bind m (fun x => k))
  (at level 61, m at next level, right associativity).
Notation "m ;;; k" := (bind m (fun _ => k))
  (at level 61, right associativity).

(** [try { body } finally { fin }]: [fin] runs whatever [body] did, and an
    exception of [fin] replaces the outcome of [body]. *)
Definition try_finally {A} (body : M A) (fin : M unit) : M A :=
  fun st =>
    let '(st1, r) := body st in
    match fin st1 with
    | (st2, inl e) => (st2, inl e)
    | (st2, inr _) => (st2, r)
    end.

Section WithEngine.

Variable eng : engine.

(** [await] of one engine call. *)
Definition invoke (c : call) : M unit :=
  fun st =>
    let st' := mkState (calls st ++ [c]) (browser st) in
    match throws eng c with
    | Some e => (st', inl e)
    | None => (st', inr tt)
    end.

Definition set_browser : M unit :=
  fun st => (mkState (calls st) true, inr tt).

Definition get_browser : M bool :=
  fun st => (st, inr (browser st)).

Definition captureScreenshot (url : string) (width height : JS.num)
    (fullPage : bool) : M string :=
  try_finally
    (invoke Launch ;;;
     set_browser ;;;
     invoke (NewContext width height) ;;;
     invoke NewPage ;;;
     invoke (SetDefaultNavigationTimeout NAVIGATION_TIMEOUT) ;;;
     invoke (SetDefaultTimeout SCREENSHOT_TIMEOUT) ;;;
     invoke (Goto url NAVIGATION_TIMEOUT) ;;;
     invoke (TakeScreenshot fullPage SCREENSHOT_TIMEOUT) ;;;
     ret (png eng))
    (b <- get_browser ;;
     if b then invoke Close else ret tt).

End WithEngine.

Definition is_close (c : call) : bool :=
  match c with Close => true | _ => false end.

(** Number of [browser.close()] calls in a log. *)
Definition closes (l : list call) : nat :=
  List.length (filter is_close l).

End Screenshot.

(* ====================================================================== *)
(** * HTTP responses *)
(* ====================================================================== *)

Module Http.

(** The bodies the handlers send: [{ error, details }] of the simple
    endpoint, [{ success: false, error: { code, message, details } }] of
    the RapidAPI endpoints, or the image. *)
Inductive payload :=
| ErrorJson (error : string) (details : option string)
| ApiErrorJson (code message : string) (details : option string)
| Png (bytes : string).

Record response := mkResponse {
  status : Z;
  headers : list (string * string);
  body : payload
}.

(** [req.headers[name]] and [req.query[name]] *)
Definition header_map := string -> option string.
Definition query_map := string -> JS.value.

(** [h || dflt] on a header value. *)
Definition header_or (h : option string) (dflt : string) : string :=
  match h with
  | Some s => if JS.truthy_string s then s else dflt
  | None => dflt
  end.

Definition truthy_header (h : option string) : bool :=
  match h with
  | Some s => JS.truthy_string s
  | None => false
  end.

(** [Number.prototype.toString] on the numbers the handlers print. *)
Definition num_toString (n : JS.num) : string :=
  match n with
  | JS.NaN => "NaN"
  | JS.Int z => NilZero.string_of_int (Z.to_int z)
  end.

End Http.

(* ====================================================================== *)
(** * middleware/rapidapi.js *)
(* ====================================================================== *)

Module Limits.

Record limits := mkLimits {
  requestsPerMonth : Z;
  maxViewportWidth : Z;
  maxViewportHeight : Z
}.

Definition BASIC := mkLimits 100 1920 1080.
Definition PRO := mkLimits 1000 2560 1440.
Definition ULTRA := mkLimits 10000 3000 3000.
Definition MEGA := mkLimits 100000 3000 3000.

(** Own properties of the object literal [limits]. *)
Definition own : list (string * limits) :=
  [("BASIC", BASIC); ("PRO", PRO); ("ULTRA", ULTRA); ("MEGA", MEGA)].

(** Property names that every object literal inherits from
    [Object.prototype]; each is bound to a function, or, for [__proto__],
    to the prototype object itself: all truthy. *)
Definition Object_prototype : list string :=
  ["constructor"; "hasOwnProperty"; "isPrototypeOf"; "propertyIsEnumerable";
   "toLocaleString"; "toString"; "valueOf"; "__proto__";
   "__defineGetter__"; "__defineSetter__"; "__lookupGetter__";
   "__lookupSetter__"].

(** What a property read on [limits] can produce. *)
Inductive property :=
| Record_ (l : limits)
| Inherited (name : string)
| Missing.

(** [limits[key]]: own properties first, then the prototype. *)
Definition get (key : string) : property :=
  match find (fun kv => String.eqb (fst kv) key) own with
  | Some kv => Record_ (snd kv)
  | None =>
      if JS.array_includes Object_prototype key then Inherited key
      else Missing
  end.

(** [limits[subscription] || limits.BASIC]; the same text in both
    revisions of the middleware. *)
Definition getSubscriptionLimits (subscription : string) : property :=
  match get subscription with
  | Missing => Record_ BASIC
  | p => p
  end.

(** [limits.maxViewportWidth] as a number operand: [undefined] on a value
    that is not one of the records, hence NaN. *)
Definition maxViewportWidth_of (p : property) : JS.num :=
  match p with
  | Record_ l => JS.Int (maxViewportWidth l)
  | _ => JS.NaN
  end.

Definition maxViewportHeight_of (p : property) : JS.num :=
  match p with
  | Record_ l => JS.Int (maxViewportHeight l)
  | _ => JS.NaN
  end.

(** [addRapidAPIHeaders]: the value of [X-RateLimit-Limit], or the
    TypeError of calling [toString] on [undefined]. *)
Definition addRapidAPIHeaders (subscription : string)
  : string + list (string * string) :=
  match getSubscriptionLimits subscription with
  | Record_ l =>
      inr [("X-RateLimit-Limit",
            Http.num_toString (JS.Int (requestsPerMonth l)))]
  | _ => inl "TypeError: Cannot read properties of undefined (reading 'toString')"
  end.

End Limits.

(** [req.rapidapi] *)
Record rapidapi := mkRapidapi {
  key : option string;
  host : option string;
  user : option string;
  subscription : string
}.

(** A middleware either answers or hands the request on. *)
Inductive middleware_result :=
| Respond (r : Http.response)
| Next (info : rapidapi).

Definition error_body (code message : string) : Http.payload :=
  Http.ApiErrorJson code message None.

(** [a !== b] between a header value and a configured string. *)
Definition differs (h : option string) (s : string) : bool :=
  match h with
  | Some x => negb (String.eqb x s)
  | None => true
  end.

(** [cfg && h !== cfg] for a configuration string that may be unset. *)
Definition set_and_differs (cfg h : option string) : bool :=
  match cfg with
  | Some c => JS.truthy_string c && differs h c
  | None => false
  end.

(** The revision of the middleware in which the proxy secret is required. *)
Module RapidapiStrict.

Section WithEnv.

(** [process.env.RAPIDAPI_PROXY_SECRET] *)
Variable RAPIDAPI_PROXY_SECRET : option string.

Definition validateRapidAPI (headers : Http.header_map) : middleware_result :=
  if negb (Http.truthy_header RAPIDAPI_PROXY_SECRET) then
    Respond (Http.mkResponse 500 []
               (error_body "CONFIG_ERROR" "API not properly configured"))
  else
    let proxySecret := headers "x-rapidapi-proxy-secret" in
    if set_and_differs RAPIDAPI_PROXY_SECRET proxySecret then
      Respond (Http.mkResponse 403 []
                 (error_body "FORBIDDEN"
                    "Invalid proxy secret. Requests must come through RapidAPI."))
    else
      Next (mkRapidapi (headers "x-rapidapi-key") None
                       (headers "x-rapidapi-user")
                       (Http.header_or (headers "x-rapidapi-subscription") "BASIC")).

End WithEnv.

End RapidapiStrict.

(** The revision of the middleware in which the proxy secret is optional
    and the key and host headers are required. *)
Module RapidapiOptional.

Section WithEnv.

Variable RAPIDAPI_PROXY_SECRET : option string.
Variable RAPIDAPI_HOST : option string.

Definition validateRapidAPI (headers : Http.header_map) : middleware_result :=
  let rapidApiKey := headers "x-rapidapi-key" in
  let rapidApiHost := headers "x-rapidapi-host" in
  let proxySecret := headers "x-rapidapi-proxy-secret" in
  if negb (Http.truthy_header rapidApiKey) then
    Respond (Http.mkResponse 401 []
               (error_body "UNAUTHORIZED"
                  "Missing X-RapidAPI-Key header. Subscribe to this API on RapidAPI."))
  else if negb (Http.truthy_header rapidApiHost) then
    Respond (Http.mkResponse 401 []
               (error_body "UNAUTHORIZED"
                  "Missing X-RapidAPI-Host header. Requests must come through RapidAPI."))
  else if set_and_differs RAPIDAPI_HOST rapidApiHost then
    Respond (Http.mkResponse 403 []
               (error_body "FORBIDDEN" "Invalid X-RapidAPI-Host header."))
  else if set_and_differs RAPIDAPI_PROXY_SECRET proxySecret then
    Respond (Http.mkResponse 403 []
               (error_body "FORBIDDEN"
                  "Invalid proxy secret. Requests must come through RapidAPI."))
  else
    Next (mkRapidapi rapidApiKey rapidApiHost
                     (Some (Http.header_or (headers "x-rapidapi-user") "unknown"))
                     (Http.header_or (headers "x-rapidapi-subscription") "BASIC")).

End WithEnv.

End RapidapiOptional.

(* ====================================================================== *)
(** * index.js *)
(* ====================================================================== *)

(** What a route handler leaves behind: the response it sent ([None] when
    the handler threw before sending one) and the engine calls it made. *)
Record outcome := mkOutcome {
  response : option Http.response;
  engine_calls : list Screenshot.call
}.

(** The revision of [index.js] with the single [/screenshot] route. *)
Module IndexSimple.

Section WithRuntime.

Variable parseURL : string -> option Validator.URL.
Variable eng : Screenshot.engine.

Definition screenshot_route (query : Http.query_map) : outcome :=
  match Validator.validateUrl parseURL (query "url") with
  | Validator.Invalid error =>
      mkOutcome (Some (Http.mkResponse 400 [] (Http.ErrorJson error None))) []
  | Validator.Valid url =>
      let viewport := Validator.validateViewport (query "w") (query "h") in
      let captureFullPage := Validator.isFullPage (query "fullPage") in
      match Screenshot.captureScreenshot eng url
              (Validator.width viewport)
              (Validator.height viewport)
              captureFullPage Screenshot.init with
      | (st, inr screenshot) =>
          mkOutcome (Some (Http.mkResponse 200
                             [("Content-Type", "image/png")]
                             (Http.Png screenshot)))
                    (Screenshot.calls st)
      | (st, inl message) =>
          mkOutcome (Some (Http.mkResponse 500 []
                             (Http.ErrorJson "Screenshot capture failed" None)))
                    (Screenshot.calls st)
      end
  end.

End WithRuntime.

End IndexSimple.

(** The revision of [index.js] with [/screenshot], [/v1/screenshot] and
    [/v1/info]. *)
Module Index.

(** The error classification in the [catch] block of [/v1/screenshot]. *)
Definition classify (message : string) : string * Z :=
  if JS.includes message "timeout" || JS.includes message "Timeout"
  then ("TIMEOUT", 504%Z)
  else if JS.includes message "net::ERR_NAME_NOT_RESOLVED"
  then ("DOMAIN_NOT_FOUND", 400%Z)
  else if JS.includes message "net::ERR_CONNECTION_REFUSED"
  then ("CONNECTION_REFUSED", 400%Z)
  else ("CAPTURE_FAILED", 500%Z).

(** The viewport computation of [/v1/screenshot]. *)
Definition v1_viewport (limits : Limits.property) (width height : JS.value)
  : JS.num * JS.num :=
  let w := JS.num_or (JS.parseInt10 width) (JS.Int 1366) in
  let h := JS.num_or (JS.parseInt10 height) (JS.Int 768) in
  let w := JS.Math_max (JS.Int 200)
             (JS.Math_min (Limits.maxViewportWidth_of limits) w) in
  let h := JS.Math_max (JS.Int 200)
             (JS.Math_min (Limits.maxViewportHeight_of limits) h) in
  (w, h).

(** [format && format !== 'png'] *)
Definition bad_format (format : JS.value) : bool :=
  match format with
  | JS.Undefined => false
  | JS.Str s => JS.truthy_string s && negb (String.eqb s "png")
  | JS.Other _ => true
  end.

(** [full_page === 'true' || full_page === '1'] *)
Definition full_page_flag (v : JS.value) : bool :=
  match v with
  | JS.Str s => String.eqb s "true" || String.eqb s "1"
  | _ => false
  end.

Section WithRuntime.

Variable parseURL : string -> option Validator.URL.
Variable eng : Screenshot.engine.

(** [Date.now() - startTime] around the capture. *)
Variable duration : Z.

Definition screenshot_route (query : Http.query_map) : outcome :=
  match Validator.validateUrl parseURL (query "url") with
  | Validator.Invalid error =>
      mkOutcome (Some (Http.mkResponse 400 [] (Http.ErrorJson error None))) []
  | Validator.Valid url =>
      let viewport := Validator.validateViewport (query "w") (query "h") in
      let captureFullPage := Validator.isFullPage (query "fullPage") in
      match Screenshot.captureScreenshot eng url
              (Validator.width viewport)
              (Validator.height viewport)
              captureFullPage Screenshot.init with
      | (st, inr screenshot) =>
          mkOutcome (Some (Http.mkResponse 200
                             [("Content-Type", "image/png")]
                             (Http.Png screenshot)))
                    (Screenshot.calls st)
      | (st, inl message) =>
          mkOutcome (Some (Http.mkResponse 500 []
                             (Http.ErrorJson "Screenshot capture failed"
                                             (Some message))))
                    (Screenshot.calls st)
      end
  end.

(** The handler of [/v1/screenshot], after the middleware has stored
    [req.rapidapi]. *)
Definition v1_screenshot (info : rapidapi) (query : Http.query_map) : outcome :=
  match Limits.addRapidAPIHeaders (subscription info) with
  | inl _ => mkOutcome None []
  | inr rate =>
      match Validator.validateUrl parseURL (query "url") with
      | Validator.Invalid error =>
          mkOutcome (Some (Http.mkResponse 400 rate
                             (Http.ApiErrorJson "INVALID_URL" error None))) []
      | Validator.Valid url =>
          let limits := Limits.getSubscriptionLimits (subscription info) in
          let '(w, h) := v1_viewport limits (query "width") (query "height") in
          let captureFullPage := full_page_flag (query "full_page") in
          if bad_format (query "format") then
            mkOutcome (Some (Http.mkResponse 400 rate
                               (Http.ApiErrorJson "INVALID_FORMAT"
                                  "Only PNG format is supported" None))) []
          else
            match Screenshot.captureScreenshot eng url w h captureFullPage
                    Screenshot.init with
            | (st, inr screenshot) =>
                mkOutcome
                  (Some (Http.mkResponse 200
                     (rate ++
                      [("Content-Type", "image/png");
                       ("X-Screenshot-Width", Http.num_toString w);
                       ("X-Screenshot-Height", Http.num_toString h);
                       ("X-Screenshot-FullPage",
                        if captureFullPage then "true" else "false");
                       ("X-Processing-Time",
                        String.append (Http.num_toString (JS.Int duration))
                                      "ms")])%list
                     (Http.Png screenshot)))
                  (Screenshot.calls st)
            | (st, inl message) =>
                let '(code, status) := classify message in
                mkOutcome
                  (Some (Http.mkResponse status rate
                     (Http.ApiErrorJson code "Failed to capture screenshot"
                                        (Some message))))
                  (Screenshot.calls st)
            end
      end
  end.

(** A route behind a middleware. *)
Definition guarded (mw : Http.header_map -> middleware_result)
    (handler : rapidapi -> Http.query_map -> outcome)
    (headers : Http.header_map) (query : Http.query_map) : outcome :=
  match mw headers with
  | Respond r => mkOutcome (Some r) []
  | Next info => handler info query
  end.

End WithRuntime.

End Index.

(* ====================================================================== *)
(** * The viewport policy as the specification words it *)
(* ====================================================================== *)

Module ViewportPolicy.

(** Clamp [x] into the interval from [lo] to [hi]. *)
Definition clamp (lo hi x : Z) : Z :=
  if (x <? lo)%Z then lo else if (hi <? x)%Z then hi else x.

(** One axis: parse as an integer, fall back to the default when the value
    is absent or unparsable, clamp to [200, min(3000, tier maximum)] when
    tier limits are supplied and to [200, 3000] otherwise. *)
Definition axis (raw : JS.value) (default : Z) (tier_max : option Z) : Z :=
  let parsed :=
    match JS.parseInt10 raw with
    | JS.NaN => default
    | JS.Int z => z
    end in
  let hi := match tier_max with
            | Some m => Z.min 3000 m
            | None => 3000%Z
            end in
  clamp 200 hi parsed.

Definition normalize (rawWidth rawHeight : JS.value)
    (tierLimits : option Limits.limits) : Z * Z :=
  (axis rawWidth 1366 (option_map Limits.maxViewportWidth tierLimits),
   axis rawHeight 768 (option_map Limits.maxViewportHeight tierLimits)).

End ViewportPolicy.

(* ====================================================================== *)
(** * Dotted-decimal IPv4 literals and the reserved ranges *)
(* ====================================================================== *)

Module IPv4.

(** An octet in decimal, without leading zeros (the [dec-octet] of
    RFC 3986, which is also how the URL parser serialises an IPv4 host). *)
Definition octet (n : nat) : string :=
  NilZero.string_of_uint (Nat.to_uint n).

Definition dotted (a b c d : nat) : string :=
  octet a ++ "." ++ octet b ++ "." ++ octet c ++ "." ++ octet d.

Definition is_octet (n : nat) : Prop := n < 256.

(** 10.0.0.0/8, 172.16.0.0/12, 192.168.0.0/16, 169.254.0.0/16 and
    127.0.0.0/8, on the numeric value of the address. *)
Definition reserved (a b c d : nat) : bool :=
  (a =? 10)%nat
  || ((a =? 172)%nat && (16 <=? b)%nat && (b <=? 31)%nat)
  || ((a =? 192)%nat && (b =? 168)%nat)
  || ((a =? 169)%nat && (b =? 254)%nat)
  || (a =? 127)%nat.

End IPv4.

(** [p] occurs in [s] as a contiguous substring. *)
Definition occurs (p s : string) : Prop :=
  exists before after, s = before ++ p ++ after.

(* ====================================================================== *)
(** * Sample points of the URL parser *)
(* ====================================================================== *)

Module Samples.

(** What [new URL(s)] of the runtime returns on a few inputs; every other
    input is treated as unparsable.  The table is closed under [href]. *)
Definition table : list (string * Validator.URL) :=
  [ ("https://example.com",
     Validator.mkURL "https:" "example.com" "https://example.com/");
    ("https://example.com/",
     Validator.mkURL "https:" "example.com" "https://example.com/");
    ("HTTP://Example.COM/a b",
     Validator.mkURL "http:" "example.com" "http://example.com/a%20b");
    ("http://example.com/a%20b",
     Validator.mkURL "http:" "example.com" "http://example.com/a%20b");
    ("http://127.0.0.1/",
     Validator.mkURL "http:" "127.0.0.1" "http://127.0.0.1/");
    ("http://10.1.2.3/",
     Validator.mkURL "http:" "10.1.2.3" "http://10.1.2.3/");
    ("ftp://10.0.0.1/",
     Validator.mkURL "ftp:" "10.0.0.1" "ftp://10.0.0.1/");
    ("http://[::1]/",
     Validator.mkURL "http:" "[::1]" "http://[::1]/") ].

Definition parseURL (s : string) : option Validator.URL :=
  match find (fun kv => String.eqb (fst kv) s) table with
  | Some kv => Some (snd kv)
  | None => None
  end.

(** An engine on which every call succeeds. *)
Definition healthy : Screenshot.engine :=
  Screenshot.mkEngine (fun _ => None) "PNG".

(** An engine on which the given call throws. *)
Definition failing_at (is_bad : Screenshot.call -> bool) (message : string)
  : Screenshot.engine :=
  Screenshot.mkEngine (fun c => if is_bad c then Some message else None) "PNG".

Definition is_goto (c : Screenshot.call) : bool :=
  match c with Screenshot.Goto _ _ => true | _ => false end.

Definition is_shot (c : Screenshot.call) : bool :=
  match c with Screenshot.TakeScreenshot _ _ => true | _ => false end.

(** Query and header maps from association lists. *)
Definition query_of (kvs : list (string * string)) : Http.query_map :=
  fun k =>
    match find (fun kv => String.eqb (fst kv) k) kvs with
    | Some kv => JS.Str (snd kv)
    | None => JS.Undefined
    end.

Definition headers_of (kvs : list (string * string)) : Http.header_map :=
  fun k =>
    match find (fun kv => String.eqb (fst kv) k) kvs with
    | Some kv => Some (snd kv)
    | None => None
    end.

End Samples.

(* ====================================================================== *)
(** * Alphabets of patterns and the call sequence of a capture *)
(* ====================================================================== *)

Module Alphabet.

(** Every character of [s] satisfies [P]. *)
Fixpoint all_chars (P : ascii -> bool) (s : string) : bool :=
  match s with
  | EmptyString => true
  | String c t => P c && all_chars P t
  end.

(** The 256 characters. *)
Definition ascii_table : list ascii := map ascii_of_nat (seq 0 256).

(** Every character that [r] can consume satisfies [P]. *)
Fixpoint consumes_only (P : ascii -> bool) (r : Regex.regex) : bool :=
  match r with
  | Regex.Eps => true
  | Regex.Chr c => P c
  | Regex.Digit =>
      forallb (fun c => implb (JS.is_digit c) (P c)) ascii_table
  | Regex.Range lo hi =>
      forallb (fun c => implb (JS.between (JS.code lo) (JS.code hi) c) (P c))
              ascii_table
  | Regex.Seq r1 r2 => consumes_only P r1 && consumes_only P r2
  | Regex.Alt r1 r2 => consumes_only P r1 && consumes_only P r2
  end.

Definition digit_or_dot (c : ascii) : bool :=
  JS.is_digit c || Ascii.eqb c ".".

End Alphabet.

(** Two more sample points of the URL parser: an IPv4-mapped IPv6 literal,
    which the parser serialises in hexadecimal. *)
Module MappedSamples.

Definition table : list (string * Validator.URL) :=
  [ ("http://[::ffff:10.0.0.1]/",
     Validator.mkURL "http:" "[::ffff:a00:1]" "http://[::ffff:a00:1]/");
    ("http://[::ffff:a00:1]/",
     Validator.mkURL "http:" "[::ffff:a00:1]" "http://[::ffff:a00:1]/") ].

Definition parseURL (s : string) : option Validator.URL :=
  match find (fun kv => String.eqb (fst kv) s) table with
  | Some kv => Some (snd kv)
  | None => None
  end.

End MappedSamples.

(** The engine calls of the [try] block of [captureScreenshot], in the
    order of the source. *)
Definition capture_script (url : string) (width height : JS.num)
    (fullPage : bool) : list Screenshot.call :=
  [ Screenshot.Launch;
    Screenshot.NewContext width height;
    Screenshot.NewPage;
    Screenshot.SetDefaultNavigationTimeout Screenshot.NAVIGATION_TIMEOUT;
    Screenshot.SetDefaultTimeout Screenshot.SCREENSHOT_TIMEOUT;
    Screenshot.Goto url Screenshot.NAVIGATION_TIMEOUT;
    Screenshot.TakeScreenshot fullPage Screenshot.SCREENSHOT_TIMEOUT ].

(** The four configured tiers. *)
Definition tiers : list Limits.limits :=
  [Limits.BASIC; Limits.PRO; Limits.ULTRA; Limits.MEGA].

(* ====================================================================== *)
(** * Strings *)
(* ====================================================================== *)

Lemma append_empty_r (s : string) : s ++ "" = s.
Proof. induction s as [|c t IH]; simpl; [reflexivity | now rewrite IH]. Qed.

Lemma append_assoc (a b c : string) : (a ++ b) ++ c = a ++ (b ++ c).
Proof. induction a as [|x a IH]; simpl; [reflexivity | now rewrite IH]. Qed.

Lemma length_append (a b : string) :
  String.length (a ++ b) = String.length a + String.length b.
Proof. induction a as [|x a IH]; simpl; [reflexivity | now rewrite IH]. Qed.

Lemma prefix_append (p s : string) : String.prefix p (p ++ s) = true.
Proof.
  induction p as [|c p IH]; simpl.
  - now destruct s.
  - destruct (ascii_dec c c) as [_|n]; [exact IH | now elim n].
Qed.

Lemma prefix_split (p s : string) :
  String.prefix p s = true -> exists rest, s = p ++ rest.
Proof.
  revert s; induction p as [|c p IH]; intros s H.
  - now exists s.
  - destruct s as [|c' s]; simpl in H; [discriminate|].
    destruct (ascii_dec c c') as [->|_]; [|discriminate].
    destruct (IH _ H) as [rest ->]. now exists rest.
Qed.

Lemma substring_all (x y : string) :
  String.substring 0 (String.length x) (x ++ y) = x.
Proof.
  induction x as [|c x IH]; simpl.
  - now destruct y.
  - now rewrite IH.
Qed.

Lemma substring_tail (x y : string) :
  String.substring (String.length x) (String.length y) (x ++ y) = y.
Proof.
  induction x as [|c x IH]; simpl; [|exact IH].
  rewrite <- (append_empty_r y) at 2. apply substring_all.
Qed.

Lemma endsWith_append (x y : string) : JS.endsWith (x ++ y) y = true.
Proof.
  unfold JS.endsWith. rewrite length_append.
  replace (String.length x + String.length y - String.length y)
    with (String.length x) by lia.
  rewrite substring_tail, String.eqb_refl, andb_true_r.
  apply Nat.leb_le. lia.
Qed.

Lemma slice_brackets (x : string) : JS.slice_1_m1 ("[" ++ x ++ "]") = x.
Proof.
  unfold JS.slice_1_m1. simpl. rewrite length_append. simpl.
  replace (String.length x + 1 - 1) with (String.length x) by lia.
  apply substring_all.
Qed.

Lemma includes_occurs (s p : string) :
  JS.includes s p = true <-> occurs p s.
Proof.
  split.
  - induction s as [|c s IH]; cbn [JS.includes]; intros H.
    + rewrite orb_false_r in H. destruct (prefix_split _ _ H) as [rest E].
      now exists "", rest.
    + apply orb_true_iff in H. destruct H as [H|H].
      * destruct (prefix_split _ _ H) as [rest E]. now exists "", rest.
      * destruct (IH H) as (b & a & ->). now exists (String c b), a.
  - intros (b & a & ->). induction b as [|c b IH].
    + change ("" ++ p ++ a) with (p ++ a).
      destruct (p ++ a) eqn:E; cbn [JS.includes]; rewrite <- E, prefix_append;
        reflexivity.
    + change (String c b ++ p ++ a) with (String c (b ++ p ++ a)).
      cbn [JS.includes]. now rewrite IH, orb_true_r.
Qed.

Lemma toLowerCase_append (a b : string) :
  JS.toLowerCase (a ++ b) = JS.toLowerCase a ++ JS.toLowerCase b.
Proof. induction a as [|c a IH]; simpl; [reflexivity | now rewrite IH]. Qed.

Lemma array_includes_In (a : list string) (s : string) :
  JS.array_includes a s = true <-> In s a.
Proof.
  unfold JS.array_includes. rewrite existsb_exists. split.
  - intros (x & Hx & E). apply String.eqb_eq in E. now subst.
  - intros H. exists s. split; [exact H | apply String.eqb_refl].
Qed.

(** A boolean test that holds on 0..255 holds on every octet. *)
Lemma all_octets (f : nat -> bool) :
  forallb f (seq 0 256) = true -> forall n, IPv4.is_octet n -> f n = true.
Proof.
  intros H n Hn. rewrite forallb_forall in H. apply H, in_seq.
  unfold IPv4.is_octet in Hn. lia.
Qed.

Lemma toLowerCase_octet (n : nat) :
  IPv4.is_octet n -> JS.toLowerCase (IPv4.octet n) = IPv4.octet n.
Proof.
  intros Hn. apply String.eqb_eq.
  revert n Hn. apply all_octets. vm_compute. reflexivity.
Qed.

Lemma toLowerCase_dotted (a b c d : nat) :
  IPv4.is_octet a -> IPv4.is_octet b -> IPv4.is_octet c -> IPv4.is_octet d ->
  JS.toLowerCase (IPv4.dotted a b c d) = IPv4.dotted a b c d.
Proof.
  intros Ha Hb Hc Hd. unfold IPv4.dotted.
  rewrite !toLowerCase_append, !toLowerCase_octet by assumption.
  reflexivity.
Qed.

(* ====================================================================== *)
(** * The matcher *)
(* ====================================================================== *)

Module RegexFacts.

Import Regex.

Lemma test_accepts (r : regex) (s : string) :
  test r s = true <-> accepts r s.
Proof.
  unfold test, accepts. rewrite existsb_exists. split.
  - intros (x & Hx & E). apply String.eqb_eq in E. now subst.
  - intros H. now exists "".
Qed.

(** Matching a prefix does not depend on what follows it. *)
Lemma run_extend (r : regex) :
  forall s t x, In t (run r s) -> In (t ++ x) (run r (s ++ x)).
Proof.
  induction r as [| c | | lo hi | r1 IH1 r2 IH2 | r1 IH1 r2 IH2];
    intros s t x H; simpl in *.
  - destruct H as [<-|[]]. now left.
  - destruct s as [|c' s]; [contradiction|]. simpl.
    destruct (Ascii.eqb c c'); [|contradiction].
    destruct H as [<-|[]]. now left.
  - destruct s as [|c' s]; [contradiction|]. simpl.
    destruct (JS.is_digit c'); [|contradiction].
    destruct H as [<-|[]]. now left.
  - destruct s as [|c' s]; [contradiction|]. simpl.
    destruct (JS.between _ _ c'); [|contradiction].
    destruct H as [<-|[]]. now left.
  - apply in_flat_map in H. destruct H as (m & Hm & Ht).
    apply in_flat_map. exists (m ++ x). split; [now apply IH1 | now apply IH2].
  - apply in_app_iff in H. apply in_app_iff.
    destruct H as [H|H]; [left; now apply IH1 | right; now apply IH2].
Qed.

Lemma accepts_seq (r1 r2 : regex) (s1 s2 : string) :
  accepts r1 s1 -> accepts r2 s2 -> accepts (Seq r1 r2) (s1 ++ s2).
Proof.
  unfold accepts. intros H1 H2. simpl. apply in_flat_map.
  exists s2. split; [|exact H2].
  apply (run_extend r1 s1 "" s2 H1).
Qed.

Lemma accepts_last (r : regex) (s : string) :
  accepts r s -> accepts (Seq r Eps) s.
Proof.
  intros H. rewrite <- (append_empty_r s).
  apply accepts_seq; [exact H | now left].
Qed.

Lemma accepts_lit (s : string) : accepts (lit s) s.
Proof.
  induction s as [|c s IH]; simpl; [now left|].
  change (String c s) with (String c "" ++ s).
  apply accepts_seq; [|exact IH].
  unfold accepts. simpl. rewrite Ascii.eqb_refl. now left.
Qed.

Lemma accepts_dot : accepts dot ".".
Proof. now left. Qed.

Lemma accepts_d13 (n : nat) : IPv4.is_octet n -> accepts d13 (IPv4.octet n).
Proof.
  intros Hn. apply test_accepts. revert n Hn.
  apply all_octets. vm_compute. reflexivity.
Qed.

(** [(1[6-9]|2\d|3[0-1])] matches the decimal numbers 16..31. *)
Lemma accepts_16_31 (n : nat) :
  16 <= n <= 31 ->
  accepts (Alt (Seq (Chr "1") (Range "6" "9"))
               (Alt (Seq (Chr "2") Digit) (Seq (Chr "3") (Range "0" "1"))))
          (IPv4.octet n).
Proof.
  intros Hn. apply test_accepts.
  assert (H : forallb (fun k =>
            test (Alt (Seq (Chr "1") (Range "6" "9"))
                      (Alt (Seq (Chr "2") Digit) (Seq (Chr "3") (Range "0" "1"))))
                 (IPv4.octet (16 + k))) (seq 0 16) = true)
    by (vm_compute; reflexivity).
  rewrite forallb_forall in H.
  replace n with (16 + (n - 16)) by lia. apply H, in_seq. lia.
Qed.

End RegexFacts.

(* ====================================================================== *)
(** * The URL validator *)
(* ====================================================================== *)

Import Validator.

Ltac nth_range k :=
  unfold isPrivateIP; apply existsb_exists;
  exists (nth k PRIVATE_IP_RANGES Regex.Eps);
  split; [ simpl; tauto | ];
  apply RegexFacts.test_accepts; unfold IPv4.dotted, PRIVATE_IP_RANGES;
  cbn [nth Regex.seqs].

Ltac tail_octets :=
  repeat first
    [ apply RegexFacts.accepts_last; apply RegexFacts.accepts_d13; assumption
    | apply RegexFacts.accepts_seq;
      [ first [ apply RegexFacts.accepts_dot
              | apply RegexFacts.accepts_d13; assumption
              | apply RegexFacts.accepts_lit ] | ] ].

(** Every canonical dotted-decimal address of a reserved range matches one
    of the patterns of [PRIVATE_IP_RANGES]. *)
Lemma reserved_isPrivateIP (a b c d : nat) :
  IPv4.is_octet a -> IPv4.is_octet b -> IPv4.is_octet c -> IPv4.is_octet d ->
  IPv4.reserved a b c d = true ->
  isPrivateIP (IPv4.dotted a b c d) = true.
Proof.
  intros Ha Hb Hc Hd H. unfold IPv4.reserved in H.
  repeat (apply orb_true_iff in H; destruct H as [H|H]).
  - apply Nat.eqb_eq in H; subst a.
    nth_range 0. change (IPv4.octet 10) with "10". tail_octets.
  - apply andb_true_iff in H; destruct H as [H Hhi].
    apply andb_true_iff in H; destruct H as [H Hlo].
    apply Nat.eqb_eq in H; subst a.
    apply Nat.leb_le in Hlo, Hhi.
    nth_range 1. change (IPv4.octet 172) with "172".
    apply RegexFacts.accepts_seq; [apply RegexFacts.accepts_lit|].
    apply RegexFacts.accepts_seq; [apply RegexFacts.accepts_dot|].
    apply RegexFacts.accepts_seq;
      [apply RegexFacts.accepts_16_31; lia|].
    tail_octets.
  - apply andb_true_iff in H; destruct H as [H1 H2].
    apply Nat.eqb_eq in H1, H2; subst a b.
    nth_range 2.
    change (IPv4.octet 192) with "192"; change (IPv4.octet 168) with "168".
    tail_octets.
  - apply andb_true_iff in H; destruct H as [H1 H2].
    apply Nat.eqb_eq in H1, H2; subst a b.
    nth_range 3.
    change (IPv4.octet 169) with "169"; change (IPv4.octet 254) with "254".
    tail_octets.
  - apply Nat.eqb_eq in H; subst a.
    nth_range 4. change (IPv4.octet 127) with "127". tail_octets.
Qed.

(** The IPv6 test on a bracketed literal reads the text between the
    brackets. *)
Lemma isPrivateIPv6_bracketed (x : string) :
  isPrivateIPv6 ("[" ++ x ++ "]") =
  (String.eqb x "::1" || JS.startsWith x "fe80:"
   || JS.startsWith x "fc" || JS.startsWith x "fd").
Proof.
  unfold isPrivateIPv6. rewrite slice_brackets.
  replace (JS.endsWith ("[" ++ x ++ "]") "]") with true.
  - unfold JS.startsWith at 1. rewrite prefix_append. reflexivity.
  - symmetry. rewrite <- append_assoc. apply endsWith_append.
Qed.

(** The first character of a reserved address is a decimal digit, so the
    address is none of the blocked names, [127.0.0.1] apart. *)
Lemma reserved_not_named (a b c d : nat) :
  IPv4.reserved a b c d = true ->
  IPv4.dotted a b c d <> "localhost" /\
  IPv4.dotted a b c d <> "::1" /\
  IPv4.dotted a b c d <> "[::1]".
Proof.
  intros H. unfold IPv4.reserved in H.
  repeat (apply orb_true_iff in H; destruct H as [H|H]);
    repeat (apply andb_true_iff in H; let H' := fresh in destruct H as [H H']);
    apply Nat.eqb_eq in H; subst a; unfold IPv4.dotted;
    repeat split; discriminate.
Qed.

(** C1. Whenever [validateUrl] accepts an input, the input is a string
    that the URL parser accepts, the returned URL is its [href], its
    scheme is http or https, and its lower-cased hostname is none of the
    blocked names, matches none of the private IPv4 patterns (hence is no
    dotted-decimal address of 10/8, 172.16/12, 192.168/16, 169.254/16 or
    127/8), and is no bracketed IPv6 literal that is the loopback address
    or starts with [fe80:], [fc] or [fd]. *)
Theorem validateUrl_accepts_only_public
    (parseURL : string -> option URL) (raw : JS.value) (url : string) :
  validateUrl parseURL raw = Valid url ->
  exists s u,
    raw = JS.Str s /\ parseURL s = Some u /\ url = href u /\
    (protocol u = "http:" \/ protocol u = "https:") /\
    ~ In (JS.toLowerCase (hostname u)) BLOCKED_HOSTNAMES /\
    (forall regex, In regex PRIVATE_IP_RANGES ->
       Regex.test regex (JS.toLowerCase (hostname u)) = false) /\
    (forall a b c d,
       IPv4.is_octet a -> IPv4.is_octet b ->
       IPv4.is_octet c -> IPv4.is_octet d ->
       IPv4.reserved a b c d = true ->
       JS.toLowerCase (hostname u) <> IPv4.dotted a b c d) /\
    (forall x, JS.toLowerCase (hostname u) = "[" ++ x ++ "]" ->
       x <> "::1" /\ JS.startsWith x "fe80:" = false /\
       JS.startsWith x "fc" = false /\ JS.startsWith x "fd" = false).
Proof.
  unfold validateUrl. intros H.
  destruct raw as [|s|o]; try discriminate.
  destruct (negb (JS.truthy_string s)); [discriminate|].
  destruct (parseURL s) as [u|] eqn:Hp; [|discriminate].
  destruct (negb (JS.array_includes ["http:"; "https:"] (protocol u))) eqn:Hs;
    [discriminate|].
  destruct (JS.array_includes BLOCKED_HOSTNAMES (JS.toLowerCase (hostname u)))
    eqn:Hb; [discriminate|].
  destruct (isPrivateIP (JS.toLowerCase (hostname u))) eqn:Hi; [discriminate|].
  destruct (isPrivateIPv6 (JS.toLowerCase (hostname u))) eqn:H6; [discriminate|].
  injection H as <-.
  exists s, u.
  split; [reflexivity|]. split; [exact Hp|]. split; [reflexivity|].
  split; [|split; [|split; [|split]]].
  - apply negb_false_iff, array_includes_In in Hs.
    destruct Hs as [E|[E|[]]]; [left | right]; now symmetry.
  - intros Hin. apply array_includes_In in Hin. congruence.
  - intros regex Hin. unfold isPrivateIP in Hi.
    destruct (Regex.test regex _) eqn:Ht; [|reflexivity].
    rewrite <- Hi. symmetry. apply existsb_exists. now exists regex.
  - intros a b c d Ha Hb' Hc Hd Hr E.
    rewrite E, (reserved_isPrivateIP a b c d) in Hi by assumption.
    discriminate.
  - intros lit6 E. rewrite E, isPrivateIPv6_bracketed in H6.
    repeat (apply orb_false_iff in H6; destruct H6 as [H6 ?]).
    split; [now apply String.eqb_neq|]. auto.
Qed.

Lemma validateUrl_accepts_only_public_witness :
  validateUrl Samples.parseURL (JS.Str "HTTP://Example.COM/a b")
    = Valid "http://example.com/a%20b" /\
  exists s u,
    JS.Str "HTTP://Example.COM/a b" = JS.Str s /\
    Samples.parseURL s = Some u /\
    "http://example.com/a%20b" = href u /\
    (protocol u = "http:" \/ protocol u = "https:").
Proof.
  split; [reflexivity|].
  destruct (validateUrl_accepts_only_public Samples.parseURL
              (JS.Str "HTTP://Example.COM/a b") "http://example.com/a%20b"
              eq_refl) as (s & u & E & Hp & Hh & Hs & _).
  exists s, u. auto.
Defined.

(** Membership in [BLOCKED_HOSTNAMES] of a reserved address. *)
Lemma reserved_blocked (a b c d : nat) :
  IPv4.reserved a b c d = true ->
  JS.array_includes BLOCKED_HOSTNAMES (IPv4.dotted a b c d)
  = String.eqb (IPv4.dotted a b c d) "127.0.0.1".
Proof.
  intros H. destruct (reserved_not_named a b c d H) as (N1 & N2 & N3).
  apply String.eqb_neq in N1, N2, N3.
  unfold JS.array_includes, BLOCKED_HOSTNAMES. cbn [existsb].
  rewrite N1, N2, N3. cbn [orb]. now rewrite !orb_false_r.
Qed.

(** C2, as the code has it. A URL with scheme http or https whose hostname
    is a canonical dotted-decimal address of 10/8, 172.16/12, 192.168/16,
    169.254/16 or 127/8 is rejected: with the private-IP error, except
    that [127.0.0.1] is caught earlier, by the blocked-hostname check. *)
Theorem reserved_ipv4_rejected
    (parseURL : string -> option URL) (s : string) (u : URL)
    (a b c d : nat) :
  s <> "" ->
  parseURL s = Some u ->
  protocol u = "http:" \/ protocol u = "https:" ->
  hostname u = IPv4.dotted a b c d ->
  IPv4.is_octet a -> IPv4.is_octet b -> IPv4.is_octet c -> IPv4.is_octet d ->
  IPv4.reserved a b c d = true ->
  validateUrl parseURL (JS.Str s) =
  Invalid (if String.eqb (hostname u) "127.0.0.1"
           then ERR_BLOCKED else ERR_PRIVATE_IP).
Proof.
  intros Hs Hp Hproto Hh Ha Hb Hc Hd Hr. unfold validateUrl.
  apply String.eqb_neq in Hs. unfold JS.truthy_string. rewrite Hs. cbn [negb].
  rewrite Hp.
  replace (JS.array_includes ["http:"; "https:"] (protocol u)) with true
    by (symmetry; apply array_includes_In;
        destruct Hproto as [-> | ->]; simpl; tauto).
  cbn [negb].
  rewrite Hh, toLowerCase_dotted, reserved_blocked by assumption.
  destruct (String.eqb (IPv4.dotted a b c d) "127.0.0.1"); [reflexivity|].
  now rewrite reserved_isPrivateIP.
Qed.

Lemma reserved_ipv4_rejected_witness :
  validateUrl Samples.parseURL (JS.Str "http://10.1.2.3/")
  = Invalid ERR_PRIVATE_IP.
Proof.
  apply (reserved_ipv4_rejected Samples.parseURL "http://10.1.2.3/"
           (mkURL "http:" "10.1.2.3" "http://10.1.2.3/") 10 1 2 3);
    first [ reflexivity | discriminate | now left
          | unfold IPv4.is_octet; lia ].
Defined.

(** C2 as stated fails: the loopback address [127.0.0.1] lies in 127/8 and
    is rejected as a blocked hostname, and an address of 10/8 under the
    scheme ftp is rejected for its scheme; neither gets the private-IP
    error. *)
Lemma reserved_ipv4_other_errors :
  (Samples.parseURL "http://127.0.0.1/"
     = Some (mkURL "http:" (IPv4.dotted 127 0 0 1) "http://127.0.0.1/") /\
   IPv4.reserved 127 0 0 1 = true /\
   validateUrl Samples.parseURL (JS.Str "http://127.0.0.1/")
     = Invalid ERR_BLOCKED /\
   ERR_BLOCKED <> ERR_PRIVATE_IP) /\
  (Samples.parseURL "ftp://10.0.0.1/"
     = Some (mkURL "ftp:" (IPv4.dotted 10 0 0 1) "ftp://10.0.0.1/") /\
   IPv4.reserved 10 0 0 1 = true /\
   validateUrl Samples.parseURL (JS.Str "ftp://10.0.0.1/")
     = Invalid ERR_PROTOCOL /\
   ERR_PROTOCOL <> ERR_PRIVATE_IP).
Proof.
  repeat split; try reflexivity; discriminate.
Qed.

(** The sample parser returns the same record on the [href] of any URL it
    produced. *)
Lemma sample_roundtrip (s : string) (u : URL) :
  Samples.parseURL s = Some u -> Samples.parseURL (href u) = Some u.
Proof.
  unfold Samples.parseURL at 1. unfold Samples.table. cbn [find fst snd].
  repeat match goal with
         | |- context [String.eqb ?k s] =>
             destruct (String.eqb k s);
             [ intros H; injection H as <-; reflexivity | ]
         end.
  discriminate.
Qed.

(** C9. Provided the URL parser rejects the empty string and returns the
    same record when it is given the [href] of an http or https URL it has
    produced, validation is idempotent: if [validateUrl] accepts an input
    and returns [url], it accepts [url] and returns [url] again, the two
    inputs being parsed to the same record (same scheme, same hostname,
    same [href]). *)
Theorem validateUrl_idempotent (parseURL : string -> option URL) :
  parseURL "" = None ->
  (forall s u, parseURL s = Some u ->
     protocol u = "http:" \/ protocol u = "https:" ->
     parseURL (href u) = Some u) ->
  forall raw url,
    validateUrl parseURL raw = Valid url ->
    validateUrl parseURL (JS.Str url) = Valid url /\
    exists s u, raw = JS.Str s /\
                parseURL s = Some u /\ parseURL url = Some u.
Proof.
  intros Hempty Hround raw url H.
  assert (H' := H). unfold validateUrl in H'.
  destruct raw as [|s|o]; try discriminate.
  destruct (negb (JS.truthy_string s)); [discriminate|].
  destruct (parseURL s) as [u|] eqn:Hp; [|discriminate].
  destruct (negb (JS.array_includes ["http:"; "https:"] (protocol u))) eqn:Hs;
    [discriminate|].
  destruct (JS.array_includes BLOCKED_HOSTNAMES (JS.toLowerCase (hostname u)))
    eqn:Hb; [discriminate|].
  destruct (isPrivateIP (JS.toLowerCase (hostname u))) eqn:Hi; [discriminate|].
  destruct (isPrivateIPv6 (JS.toLowerCase (hostname u))) eqn:H6; [discriminate|].
  injection H' as <-.
  assert (Hproto : protocol u = "http:" \/ protocol u = "https:").
  { apply negb_false_iff, array_includes_In in Hs.
    destruct Hs as [E|[E|[]]]; [left | right]; now symmetry. }
  assert (Hre : parseURL (href u) = Some u) by (eapply Hround; eassumption).
  assert (Hne : JS.truthy_string (href u) = true).
  { unfold JS.truthy_string. apply negb_true_iff, String.eqb_neq.
    intros E. rewrite E in Hre. congruence. }
  split.
  - unfold validateUrl. rewrite Hne. cbn [negb].
    rewrite Hre, Hs, Hb, Hi, H6. reflexivity.
  - exists s, u. auto.
Qed.

Lemma validateUrl_idempotent_witness :
  validateUrl Samples.parseURL (JS.Str "HTTP://Example.COM/a b")
    = Valid "http://example.com/a%20b" /\
  validateUrl Samples.parseURL (JS.Str "http://example.com/a%20b")
    = Valid "http://example.com/a%20b".
Proof.
  split; [reflexivity|].
  apply (validateUrl_idempotent Samples.parseURL eq_refl
           (fun s u H _ => sample_roundtrip s u H)
           (JS.Str "HTTP://Example.COM/a b") "http://example.com/a%20b"
           eq_refl).
Defined.

(* ====================================================================== *)
(** * The capture lifecycle *)
(* ====================================================================== *)

Import Screenshot.

Ltac step_engine eng :=
  match goal with
  | |- context [throws eng ?c] => destruct (throws eng c); cbn
  end.

(** C3. When the launch succeeds, [captureScreenshot] calls
    [browser.close()] exactly once, as its last engine call, whatever the
    other calls do: each of context creation, page creation, the timeout
    settings, navigation, capture and the close itself may succeed or
    throw. *)
Theorem browser_closed_exactly_once
    (eng : engine) (url : string) (width height : JS.num) (fullPage : bool) :
  throws eng Launch = None ->
  let st := fst (captureScreenshot eng url width height fullPage init) in
  closes (calls st) = 1 /\
  exists earlier,
    calls st = (earlier ++ [Close])%list /\ closes earlier = 0 /\
    hd_error earlier = Some Launch.
Proof.
  intros HL.
  unfold captureScreenshot, try_finally, bind, set_browser, get_browser,
    ret, invoke, init.
  cbn. rewrite HL. cbn.
  repeat step_engine eng;
    (split; [reflexivity|]);
    match goal with
    | |- exists e, (?l ++ [Close])%list = _ /\ _ => exists l
    | |- exists e, ?l = _ /\ _ =>
        exists (removelast l); cbn
    end; repeat split; reflexivity.
Qed.

Lemma browser_closed_exactly_once_witness :
  throws (Samples.failing_at Samples.is_goto "page.goto: Timeout 30000ms exceeded.")
         Launch = None /\
  closes (calls (fst (captureScreenshot
            (Samples.failing_at Samples.is_goto
               "page.goto: Timeout 30000ms exceeded.")
            "https://example.com/" (JS.Int 1366) (JS.Int 768) false init))) = 1.
Proof.
  split; [reflexivity|].
  apply (browser_closed_exactly_once
           (Samples.failing_at Samples.is_goto
              "page.goto: Timeout 30000ms exceeded.")
           "https://example.com/" (JS.Int 1366) (JS.Int 768) false eq_refl).
Defined.

(** When the launch itself throws there is no browser to close, and no
    further call is made. *)
Lemma launch_failure_no_close
    (eng : engine) (url : string) (width height : JS.num) (fullPage : bool)
    (e : string) :
  throws eng Launch = Some e ->
  captureScreenshot eng url width height fullPage init
  = (mkState [Launch] false, inl e).
Proof.
  intros HL.
  unfold captureScreenshot, try_finally, bind, set_browser, get_browser,
    ret, invoke, init.
  cbn. rewrite HL. reflexivity.
Qed.

(** The outcome of a capture whose body throws is that exception, unless
    the close throws as well; a capture on a healthy engine returns the
    image. *)
Example capture_healthy :
  captureScreenshot Samples.healthy "https://example.com/"
    (JS.Int 1366) (JS.Int 768) true init
  = (mkState [Launch; NewContext (JS.Int 1366) (JS.Int 768); NewPage;
              SetDefaultNavigationTimeout 30000; SetDefaultTimeout 30000;
              Goto "https://example.com/" 30000;
              TakeScreenshot true 30000; Close] true,
     inr "PNG").
Proof. reflexivity. Qed.

Example capture_timeout :
  captureScreenshot
    (Samples.failing_at Samples.is_shot
       "page.screenshot: Timeout 30000ms exceeded.")
    "https://example.com/" (JS.Int 1366) (JS.Int 768) false init
  = (mkState [Launch; NewContext (JS.Int 1366) (JS.Int 768); NewPage;
              SetDefaultNavigationTimeout 30000; SetDefaultTimeout 30000;
              Goto "https://example.com/" 30000;
              TakeScreenshot false 30000; Close] true,
     inl "page.screenshot: Timeout 30000ms exceeded.").
Proof. reflexivity. Qed.

(* ====================================================================== *)
(** * Viewport normalisation *)
(* ====================================================================== *)

Lemma max_min_clamp (lo hi x : Z) :
  (lo <= hi)%Z -> Z.max lo (Z.min hi x) = ViewportPolicy.clamp lo hi x.
Proof.
  intros H. unfold ViewportPolicy.clamp.
  destruct (Z.ltb_spec x lo); [lia|].
  destruct (Z.ltb_spec hi x); lia.
Qed.

(** C4. [validateViewport] returns two integers (never NaN), both between
    200 and 3000; each axis is, independently of the other, the default
    (1366 wide, 768 high) when [parseInt] gives NaN on its input, as it
    does on an absent input, and otherwise the parsed integer clamped to
    [200, 3000]; absent inputs give 1366x768, "50" gives 200 and "5000"
    gives 3000. *)
Theorem validateViewport_clamps (w h : JS.value) :
  (exists x y,
     validateViewport w h = mkViewport (JS.Int x) (JS.Int y) /\
     (200 <= x <= 3000)%Z /\ (200 <= y <= 3000)%Z /\
     x = match JS.parseInt10 w with
         | JS.NaN => 1366%Z
         | JS.Int z => ViewportPolicy.clamp 200 3000 z
         end /\
     y = match JS.parseInt10 h with
         | JS.NaN => 768%Z
         | JS.Int z => ViewportPolicy.clamp 200 3000 z
         end) /\
  JS.parseInt10 JS.Undefined = JS.NaN /\
  validateViewport JS.Undefined JS.Undefined
    = mkViewport (JS.Int 1366) (JS.Int 768) /\
  validateViewport (JS.Str "50") (JS.Str "50")
    = mkViewport (JS.Int 200) (JS.Int 200) /\
  validateViewport (JS.Str "5000") (JS.Str "5000")
    = mkViewport (JS.Int 3000) (JS.Int 3000).
Proof.
  split; [|repeat split; reflexivity].
  unfold validateViewport, MIN_SIZE, MAX_SIZE, DEFAULT_WIDTH, DEFAULT_HEIGHT.
  destruct (JS.parseInt10 w) as [|zw], (JS.parseInt10 h) as [|zh];
    cbn [JS.isNaN JS.Math_min JS.Math_max];
    eexists; eexists; (split; [reflexivity|]);
    rewrite ?max_min_clamp by lia;
    unfold ViewportPolicy.clamp;
    repeat match goal with
           | |- context [(?a <? ?b)%Z] => destruct (Z.ltb_spec a b)
           end;
    repeat split; try reflexivity; lia.
Qed.

(** The validator agrees with the policy of the specification when no tier
    limits are supplied. *)
Lemma validateViewport_normalize (w h : JS.value) :
  validateViewport w h
  = mkViewport (JS.Int (fst (ViewportPolicy.normalize w h None)))
               (JS.Int (snd (ViewportPolicy.normalize w h None))).
Proof.
  unfold validateViewport, ViewportPolicy.normalize, ViewportPolicy.axis,
    MIN_SIZE, MAX_SIZE, DEFAULT_WIDTH, DEFAULT_HEIGHT.
  cbn [fst snd option_map].
  destruct (JS.parseInt10 w), (JS.parseInt10 h);
    cbn [JS.isNaN JS.Math_min JS.Math_max];
    now rewrite !max_min_clamp by lia.
Qed.

(** C5 fails on the code. On [/v1/screenshot] a width or height that
    parses to zero is replaced by the default before clamping, so the
    input "0" gives 1366x768 under the BASIC tier, where the policy of the
    specification, like [validateViewport], clamps zero up to 200. *)
Theorem v1_viewport_zero_is_default :
  Index.v1_viewport (Limits.getSubscriptionLimits "BASIC")
                    (JS.Str "0") (JS.Str "0")
    = (JS.Int 1366, JS.Int 768) /\
  ViewportPolicy.normalize (JS.Str "0") (JS.Str "0") (Some Limits.BASIC)
    = (200%Z, 200%Z) /\
  validateViewport (JS.Str "0") (JS.Str "0")
    = mkViewport (JS.Int 200) (JS.Int 200).
Proof. repeat split; reflexivity. Qed.

(** Away from zero the inline computation of [/v1/screenshot] is the
    policy of the specification, for each of the four tiers. *)
Lemma v1_viewport_normalize (tier : Limits.limits) (w h : JS.value) :
  In tier [Limits.BASIC; Limits.PRO; Limits.ULTRA; Limits.MEGA] ->
  JS.parseInt10 w <> JS.Int 0 ->
  JS.parseInt10 h <> JS.Int 0 ->
  Index.v1_viewport (Limits.Record_ tier) w h
  = (JS.Int (fst (ViewportPolicy.normalize w h (Some tier))),
     JS.Int (snd (ViewportPolicy.normalize w h (Some tier)))).
Proof.
  intros Ht Hw Hh.
  unfold Index.v1_viewport, ViewportPolicy.normalize, ViewportPolicy.axis.
  cbn [fst snd option_map Limits.maxViewportWidth_of
       Limits.maxViewportHeight_of].
  assert (Hnum : forall n d, n <> JS.Int 0 ->
            JS.num_or n (JS.Int d)
            = JS.Int match n with JS.NaN => d | JS.Int z => z end).
  { intros [|z] d Hn; [reflexivity|]. unfold JS.num_or.
    destruct (Z.eqb_spec z 0); [subst; now elim Hn | reflexivity]. }
  rewrite (Hnum _ _ Hw), (Hnum _ _ Hh). cbn [JS.Math_min JS.Math_max].
  destruct Ht as [<-|[<-|[<-|[<-|[]]]]]; cbn;
    rewrite <- !max_min_clamp by lia; reflexivity.
Qed.

(* ====================================================================== *)
(** * Subscription limits *)
(* ====================================================================== *)

(** C7 fails on the code. The lookup [limits[subscription]] also finds the
    properties that the object literal inherits from [Object.prototype]:
    for the subscription string "constructor" the result is that inherited
    member, which is truthy, so the fallback to the BASIC record is not
    taken and the result is none of the four records. *)
Theorem getSubscriptionLimits_inherited :
  Limits.getSubscriptionLimits "constructor" = Limits.Inherited "constructor" /\
  ~ In "constructor" ["BASIC"; "PRO"; "ULTRA"; "MEGA"] /\
  Limits.getSubscriptionLimits "constructor" <> Limits.Record_ Limits.BASIC /\
  Limits.addRapidAPIHeaders "constructor"
    = inl "TypeError: Cannot read properties of undefined (reading 'toString')".
Proof.
  split; [reflexivity|]. split; [|split; [discriminate | reflexivity]].
  simpl. intros [H|[H|[H|[H|[]]]]]; discriminate.
Qed.

(** On a tier name the result is the record of that tier, and on any other
    string that names no member of [Object.prototype] it is the BASIC
    record. *)
Lemma getSubscriptionLimits_own_or_basic (subscription : string) :
  ~ In subscription Limits.Object_prototype ->
  Limits.getSubscriptionLimits subscription =
  Limits.Record_
    (if String.eqb subscription "BASIC" then Limits.BASIC
     else if String.eqb subscription "PRO" then Limits.PRO
     else if String.eqb subscription "ULTRA" then Limits.ULTRA
     else if String.eqb subscription "MEGA" then Limits.MEGA
     else Limits.BASIC).
Proof.
  intros Hn. unfold Limits.getSubscriptionLimits, Limits.get, Limits.own.
  cbn [find fst snd].
  rewrite (String.eqb_sym "BASIC"), (String.eqb_sym "PRO"),
    (String.eqb_sym "ULTRA"), (String.eqb_sym "MEGA").
  repeat match goal with
         | |- context [String.eqb subscription ?k] =>
             destruct (String.eqb subscription k); [reflexivity|]
         end.
  destruct (JS.array_includes Limits.Object_prototype subscription) eqn:E;
    [|reflexivity].
  apply array_includes_In in E. contradiction.
Qed.

(* ====================================================================== *)
(** * Error classification on /v1/screenshot *)
(* ====================================================================== *)

Lemma includes_false (s p : string) :
  JS.includes s p = false <-> ~ occurs p s.
Proof.
  rewrite <- includes_occurs. destruct (JS.includes s p); split; intros H;
    try reflexivity; try discriminate; try (intros E; discriminate).
  now elim H.
Qed.

(** C6. The classification reads the failure message for substrings, in
    order, and the first that occurs decides: "timeout" or "Timeout" gives
    TIMEOUT with 504; otherwise "net::ERR_NAME_NOT_RESOLVED" gives
    DOMAIN_NOT_FOUND with 400; otherwise "net::ERR_CONNECTION_REFUSED"
    gives CONNECTION_REFUSED with 400; any other message gives
    CAPTURE_FAILED with 500. *)
Theorem classify_first_match (message : string) :
  let timeout := occurs "timeout" message \/ occurs "Timeout" message in
  let unresolved := occurs "net::ERR_NAME_NOT_RESOLVED" message in
  let refused := occurs "net::ERR_CONNECTION_REFUSED" message in
  (timeout -> Index.classify message = ("TIMEOUT", 504%Z)) /\
  (~ timeout -> unresolved ->
     Index.classify message = ("DOMAIN_NOT_FOUND", 400%Z)) /\
  (~ timeout -> ~ unresolved -> refused ->
     Index.classify message = ("CONNECTION_REFUSED", 400%Z)) /\
  (~ timeout -> ~ unresolved -> ~ refused ->
     Index.classify message = ("CAPTURE_FAILED", 500%Z)).
Proof.
  cbv zeta. unfold Index.classify.
  destruct (JS.includes message "timeout") eqn:T1.
  { apply includes_occurs in T1. cbn [orb].
    repeat split; intros; try reflexivity; tauto. }
  destruct (JS.includes message "Timeout") eqn:T2.
  { apply includes_occurs in T2. cbn [orb].
    repeat split; intros; try reflexivity; tauto. }
  apply includes_false in T1, T2. cbn [orb].
  destruct (JS.includes message "net::ERR_NAME_NOT_RESOLVED") eqn:D.
  { apply includes_occurs in D.
    repeat split; intros; try reflexivity; tauto. }
  apply includes_false in D.
  destruct (JS.includes message "net::ERR_CONNECTION_REFUSED") eqn:R.
  { apply includes_occurs in R.
    repeat split; intros; try reflexivity; tauto. }
  apply includes_false in R.
  repeat split; intros; try reflexivity; tauto.
Qed.

Lemma classify_first_match_witness :
  Index.classify "page.goto: net::ERR_NAME_NOT_RESOLVED at http://nx.invalid/"
  = ("DOMAIN_NOT_FOUND", 400%Z).
Proof.
  apply (classify_first_match
           "page.goto: net::ERR_NAME_NOT_RESOLVED at http://nx.invalid/").
  - intros [H|H]; apply includes_occurs in H; discriminate.
  - apply includes_occurs. reflexivity.
Defined.

(** On [/v1/screenshot] a failed capture is answered with the status and
    the code of the classification of its message. *)
Lemma v1_screenshot_failure
    (parseURL : string -> option URL) (eng : engine) (duration : Z)
    (info : rapidapi) (query : Http.query_map)
    (rate : list (string * string)) (url message : string) (st : state) :
  Limits.addRapidAPIHeaders (subscription info) = inr rate ->
  validateUrl parseURL (query "url") = Valid url ->
  Index.bad_format (query "format") = false ->
  captureScreenshot eng url
    (fst (Index.v1_viewport (Limits.getSubscriptionLimits (subscription info))
            (query "width") (query "height")))
    (snd (Index.v1_viewport (Limits.getSubscriptionLimits (subscription info))
            (query "width") (query "height")))
    (Index.full_page_flag (query "full_page")) init
  = (st, inl message) ->
  response (Index.v1_screenshot parseURL eng duration info query)
  = Some (Http.mkResponse (snd (Index.classify message)) rate
            (Http.ApiErrorJson (fst (Index.classify message))
               "Failed to capture screenshot" (Some message))).
Proof.
  intros Hrate Hurl Hfmt Hcap. unfold Index.v1_screenshot.
  rewrite Hrate, Hurl.
  destruct (Index.v1_viewport _ _ _) as [w h]. cbn [fst snd] in Hcap.
  rewrite Hfmt, Hcap. destruct (Index.classify message). reflexivity.
Qed.

(* ====================================================================== *)
(** * The simple endpoint *)
(* ====================================================================== *)

(** C10. On [/screenshot], in both revisions of [index.js], a capture that
    fails is answered with status 500 and the error text
    'Screenshot capture failed', whatever the failure message is; the
    later revision adds the message as [details]. *)
Theorem screenshot_route_failure_is_500
    (parseURL : string -> option URL) (eng : engine)
    (query : Http.query_map) (url message : string) (st : state) :
  validateUrl parseURL (query "url") = Valid url ->
  captureScreenshot eng url
    (width (validateViewport (query "w") (query "h")))
    (height (validateViewport (query "w") (query "h")))
    (isFullPage (query "fullPage")) init
  = (st, inl message) ->
  response (IndexSimple.screenshot_route parseURL eng query)
  = Some (Http.mkResponse 500 []
            (Http.ErrorJson "Screenshot capture failed" None)) /\
  response (Index.screenshot_route parseURL eng query)
  = Some (Http.mkResponse 500 []
            (Http.ErrorJson "Screenshot capture failed" (Some message))).
Proof.
  intros Hurl Hcap.
  unfold IndexSimple.screenshot_route, Index.screenshot_route.
  rewrite Hurl, Hcap. split; reflexivity.
Qed.

Lemma screenshot_route_failure_is_500_witness :
  response (IndexSimple.screenshot_route Samples.parseURL
              (Samples.failing_at Samples.is_goto
                 "page.goto: Timeout 30000ms exceeded.")
              (Samples.query_of [("url", "https://example.com")]))
  = Some (Http.mkResponse 500 []
            (Http.ErrorJson "Screenshot capture failed" None)) /\
  response (Index.screenshot_route Samples.parseURL
              (Samples.failing_at Samples.is_goto
                 "page.goto: Timeout 30000ms exceeded.")
              (Samples.query_of [("url", "https://example.com")]))
  = Some (Http.mkResponse 500 []
            (Http.ErrorJson "Screenshot capture failed"
               (Some "page.goto: Timeout 30000ms exceeded."))).
Proof.
  apply (screenshot_route_failure_is_500 Samples.parseURL
           (Samples.failing_at Samples.is_goto
              "page.goto: Timeout 30000ms exceeded.")
           (Samples.query_of [("url", "https://example.com")])
           "https://example.com/"
           "page.goto: Timeout 30000ms exceeded."
           (mkState [Launch; NewContext (JS.Int 1366) (JS.Int 768); NewPage;
                     SetDefaultNavigationTimeout 30000; SetDefaultTimeout 30000;
                     Goto "https://example.com/" 30000; Close] true));
    reflexivity.
Defined.

(** The same failure on [/v1/screenshot] is a 504 with code TIMEOUT. *)
Example v1_screenshot_timeout :
  response (Index.v1_screenshot Samples.parseURL
              (Samples.failing_at Samples.is_goto
                 "page.goto: Timeout 30000ms exceeded.")
              0%Z
              (mkRapidapi (Some "k") (Some "h") (Some "u") "PRO")
              (Samples.query_of [("url", "https://example.com")]))
  = Some (Http.mkResponse 504 [("X-RateLimit-Limit", "1000")]
            (Http.ApiErrorJson "TIMEOUT" "Failed to capture screenshot"
               (Some "page.goto: Timeout 30000ms exceeded."))).
Proof. reflexivity. Qed.

(** A request for a blocked target never reaches the engine. *)
Lemma rejected_url_no_engine_call
    (parseURL : string -> option URL) (eng : engine)
    (query : Http.query_map) (error : string) :
  validateUrl parseURL (query "url") = Invalid error ->
  engine_calls (IndexSimple.screenshot_route parseURL eng query) = [] /\
  engine_calls (Index.screenshot_route parseURL eng query) = [].
Proof.
  intros H. unfold IndexSimple.screenshot_route, Index.screenshot_route.
  now rewrite H.
Qed.

(* ====================================================================== *)
(** * The RapidAPI middleware *)
(* ====================================================================== *)

(** C8 as stated fails on the revision of the middleware in which the
    secret is optional: with no secret configured, a request that carries
    the key and host headers is handed on to the handler. *)
Lemma optional_secret_unset_reaches_handler :
  RapidapiOptional.validateRapidAPI None None
    (Samples.headers_of [("x-rapidapi-key", "k");
                         ("x-rapidapi-host", "api.example")])
  = Next (mkRapidapi (Some "k") (Some "api.example") (Some "unknown") "BASIC").
Proof. reflexivity. Qed.

(** C8, as the code has it. With the proxy secret unset (or empty), the
    revision that requires the secret answers every request with status
    500 and code CONFIG_ERROR; the revision in which the secret is optional
    skips the secret check only: it answers 401 when the key or the host
    header is missing, 403 when a configured host differs, and hands every
    other request on to the handler. *)
Theorem secret_unset_middleware
    (secret host : option string) (headers : Http.header_map) :
  Http.truthy_header secret = false ->
  RapidapiStrict.validateRapidAPI secret headers
  = Respond (Http.mkResponse 500 []
               (Http.ApiErrorJson "CONFIG_ERROR" "API not properly configured"
                                  None)) /\
  match RapidapiOptional.validateRapidAPI secret host headers with
  | Respond r =>
      (Http.status r = 401%Z /\
       (Http.truthy_header (headers "x-rapidapi-key") = false \/
        Http.truthy_header (headers "x-rapidapi-host") = false)) \/
      (Http.status r = 403%Z /\
       set_and_differs host (headers "x-rapidapi-host") = true)
  | Next info =>
      Http.truthy_header (headers "x-rapidapi-key") = true /\
      Http.truthy_header (headers "x-rapidapi-host") = true /\
      set_and_differs host (headers "x-rapidapi-host") = false /\
      key info = headers "x-rapidapi-key"
  end.
Proof.
  intros Hs. split.
  - unfold RapidapiStrict.validateRapidAPI. now rewrite Hs.
  - unfold RapidapiOptional.validateRapidAPI.
    destruct (Http.truthy_header (headers "x-rapidapi-key")) eqn:Hk; cbn [negb];
      [|left; split; [reflexivity | now left]].
    destruct (Http.truthy_header (headers "x-rapidapi-host")) eqn:Hh; cbn [negb];
      [|left; split; [reflexivity | now right]].
    destruct (set_and_differs host (headers "x-rapidapi-host")) eqn:Hd;
      [right; split; reflexivity|].
    replace (set_and_differs secret (headers "x-rapidapi-proxy-secret"))
      with false.
    + repeat split; reflexivity.
    + destruct secret as [x|]; [|reflexivity].
      unfold set_and_differs. simpl in Hs. now rewrite Hs.
Qed.

Lemma secret_unset_middleware_witness :
  RapidapiStrict.validateRapidAPI None
    (Samples.headers_of [("x-rapidapi-proxy-secret", "guess")])
  = Respond (Http.mkResponse 500 []
               (Http.ApiErrorJson "CONFIG_ERROR" "API not properly configured"
                                  None)).
Proof.
  apply (secret_unset_middleware None None
           (Samples.headers_of [("x-rapidapi-proxy-secret", "guess")])
           eq_refl).
Defined.

(* ====================================================================== *)
(** * What the private-IP patterns match *)
(* ====================================================================== *)

Module PatternFacts.

Import Regex Alphabet RegexFacts.

Lemma in_ascii_table (c : ascii) : In c ascii_table.
Proof.
  unfold ascii_table. rewrite <- (ascii_nat_embedding c).
  apply in_map, in_seq. pose proof (nat_ascii_bounded c). lia.
Qed.

Lemma all_chars_append (P : ascii -> bool) (a b : string) :
  all_chars P (a ++ b) = all_chars P a && all_chars P b.
Proof.
  induction a as [|c a IH]; simpl; [reflexivity|].
  now rewrite IH, andb_assoc.
Qed.

Lemma table_implies (P Q : ascii -> bool) (c : ascii) :
  forallb (fun x => implb (Q x) (P x)) ascii_table = true ->
  Q c = true -> P c = true.
Proof.
  intros H Hq. rewrite forallb_forall in H.
  specialize (H c (in_ascii_table c)). now rewrite Hq in H.
Qed.

(** Whatever [r] leaves of [s] is a suffix of [s], and the prefix it has
    consumed is matched by [r] and stays within the alphabet of [r]. *)
Lemma run_inv (P : ascii -> bool) (r : regex) :
  consumes_only P r = true ->
  forall s m, In m (run r s) ->
  exists p, s = p ++ m /\ accepts r p /\ all_chars P p = true.
Proof.
  induction r as [| c | | lo hi | r1 IH1 r2 IH2 | r1 IH1 r2 IH2];
    intros HP s m H; simpl in *.
  - destruct H as [<-|[]]. exists "". repeat split. now left.
  - destruct s as [|c' s]; [contradiction|].
    destruct (Ascii.eqb_spec c c') as [<-|]; [|contradiction].
    destruct H as [<-|[]]. exists (String c ""). repeat split.
    + unfold accepts; simpl. rewrite Ascii.eqb_refl. now left.
    + simpl. now rewrite HP.
  - destruct s as [|c' s]; [contradiction|].
    destruct (JS.is_digit c') eqn:E; [|contradiction].
    destruct H as [<-|[]]. exists (String c' ""). repeat split.
    + unfold accepts; simpl. rewrite E. now left.
    + simpl. now rewrite (table_implies P JS.is_digit c' HP E).
  - destruct s as [|c' s]; [contradiction|].
    destruct (JS.between (JS.code lo) (JS.code hi) c') eqn:E; [|contradiction].
    destruct H as [<-|[]]. exists (String c' ""). repeat split.
    + unfold accepts; simpl. rewrite E. now left.
    + simpl.
      now rewrite (table_implies P (JS.between (JS.code lo) (JS.code hi))
                     c' HP E).
  - apply andb_true_iff in HP. destruct HP as [HP1 HP2].
    apply in_flat_map in H. destruct H as (m1 & H1 & H2).
    destruct (IH1 HP1 _ _ H1) as (p1 & -> & A1 & C1).
    destruct (IH2 HP2 _ _ H2) as (p2 & -> & A2 & C2).
    exists (p1 ++ p2). repeat split.
    + now rewrite append_assoc.
    + now apply accepts_seq.
    + now rewrite all_chars_append, C1, C2.
  - apply andb_true_iff in HP. destruct HP as [HP1 HP2].
    apply in_app_iff in H. destruct H as [H|H].
    + destruct (IH1 HP1 _ _ H) as (p & -> & A & C).
      exists p. repeat split; trivial.
      unfold accepts in *. simpl. apply in_app_iff. now left.
    + destruct (IH2 HP2 _ _ H) as (p & -> & A & C).
      exists p. repeat split; trivial.
      unfold accepts in *. simpl. apply in_app_iff. now right.
Qed.

(** Two strings of digits followed by a dot and equal as a whole split at
    the same place. *)
Lemma digits_dot_split (x p y m : string) :
  all_chars JS.is_digit x = true -> all_chars JS.is_digit p = true ->
  x ++ "." ++ y = p ++ "." ++ m -> x = p /\ y = m.
Proof.
  revert p. induction x as [|c x IH]; intros [|d p] Hx Hp E; simpl in *.
  - injection E as ->. now split.
  - injection E as <- _. discriminate.
  - injection E as -> _. discriminate.
  - injection E as -> E.
    apply andb_true_iff in Hx, Hp. destruct Hx as [_ Hx], Hp as [_ Hp].
    destruct (IH p Hx Hp E) as [-> ->]. now split.
Qed.

(** A pattern of digits followed by a dot consumes a whole dot-terminated
    group of digits or nothing. *)
Lemma run_group (X R : regex) (x y t : string) :
  consumes_only JS.is_digit X = true ->
  all_chars JS.is_digit x = true ->
  In t (run (Seq X (Seq dot R)) (x ++ "." ++ y)) <->
  accepts X x /\ In t (run R y).
Proof.
  intros HX Hx. split.
  - intros H. cbn [run] in H. apply in_flat_map in H.
    destruct H as (m & Hm & Ht).
    destruct (run_inv _ _ HX _ _ Hm) as (p & E & A & C).
    apply in_flat_map in Ht. destruct Ht as (m' & Hm' & Ht).
    unfold dot in Hm'. cbn [run] in Hm'.
    destruct m as [|c m]; [contradiction|].
    destruct (Ascii.eqb_spec "." c) as [<-|]; [|contradiction].
    destruct Hm' as [<-|[]].
    destruct (digits_dot_split x p y m Hx C E) as [-> ->]. now split.
  - intros [A Ht]. simpl. apply in_flat_map. exists ("." ++ y). split.
    + apply (run_extend X x "" ("." ++ y) A).
    + simpl. now rewrite app_nil_r.
Qed.

Lemma test_group (X R : regex) (x y : string) :
  consumes_only JS.is_digit X = true ->
  all_chars JS.is_digit x = true ->
  test (Seq X (Seq dot R)) (x ++ "." ++ y) = test X x && test R y.
Proof.
  intros HX Hx. apply eq_true_iff_eq.
  rewrite andb_true_iff, !test_accepts. unfold accepts at 1 3.
  apply run_group; assumption.
Qed.

Lemma test_last (X : regex) (s : string) : test (Seq X Eps) s = test X s.
Proof.
  unfold test. simpl. f_equal.
  induction (run X s) as [|m l IH]; simpl; [reflexivity | now rewrite IH].
Qed.

Lemma octet_digits (n : nat) :
  IPv4.is_octet n -> all_chars JS.is_digit (IPv4.octet n) = true.
Proof. revert n. apply all_octets. vm_compute. reflexivity. Qed.

(** A pattern of four digit groups separated by dots is tested group by
    group on a dotted-decimal address. *)
Lemma test_quad (A B C D : regex) (a b c d : nat) :
  consumes_only JS.is_digit A = true ->
  consumes_only JS.is_digit B = true ->
  consumes_only JS.is_digit C = true ->
  IPv4.is_octet a -> IPv4.is_octet b -> IPv4.is_octet c ->
  test (seqs [A; dot; B; dot; C; dot; D]) (IPv4.dotted a b c d)
  = test A (IPv4.octet a) && (test B (IPv4.octet b)
    && (test C (IPv4.octet c) && test D (IPv4.octet d))).
Proof.
  intros HA HB HC Ha Hb Hc. unfold IPv4.dotted. cbn [seqs].
  rewrite !test_group, test_last by (assumption || now apply octet_digits).
  reflexivity.
Qed.

(** A boolean function that agrees with a test on 0..255 agrees with it
    on every octet. *)
Lemma octet_test (r : regex) (f : nat -> bool) :
  forallb (fun n => Bool.eqb (test r (IPv4.octet n)) (f n)) (seq 0 256) = true ->
  forall n, IPv4.is_octet n -> test r (IPv4.octet n) = f n.
Proof.
  intros H n Hn. apply Bool.eqb_prop.
  revert n Hn. apply all_octets. exact H.
Qed.

End PatternFacts.

Lemma append_cancel_r (x y z : string) : x ++ z = y ++ z -> x = y.
Proof.
  revert y. induction x as [|c x IH]; intros [|d y] E; simpl in *.
  - reflexivity.
  - apply (f_equal String.length) in E. simpl in E.
    rewrite length_append in E. lia.
  - apply (f_equal String.length) in E. simpl in E.
    rewrite length_append in E. lia.
  - injection E as -> E. now rewrite (IH y E).
Qed.

(** On a canonical dotted-decimal address, [isPrivateIP] decides exactly
    membership in 10/8, 172.16/12, 192.168/16, 169.254/16 and 127/8: every
    address of these ranges is matched and no other address is. *)
Theorem isPrivateIP_exact_on_addresses (a b c d : nat) :
  IPv4.is_octet a -> IPv4.is_octet b -> IPv4.is_octet c -> IPv4.is_octet d ->
  isPrivateIP (IPv4.dotted a b c d) = IPv4.reserved a b c d.
Proof.
  intros Ha Hb Hc Hd.
  unfold isPrivateIP, PRIVATE_IP_RANGES. cbn [existsb].
  rewrite !PatternFacts.test_quad by (assumption || (vm_compute; reflexivity)).
  rewrite !(PatternFacts.octet_test Regex.d13 (fun _ => true))
    by (assumption || (vm_compute; reflexivity)).
  rewrite (PatternFacts.octet_test (Regex.lit "10") (fun n => (n =? 10)%nat))
    by (assumption || (vm_compute; reflexivity)).
  rewrite (PatternFacts.octet_test (Regex.lit "172") (fun n => (n =? 172)%nat))
    by (assumption || (vm_compute; reflexivity)).
  rewrite (PatternFacts.octet_test (Regex.lit "192") (fun n => (n =? 192)%nat))
    by (assumption || (vm_compute; reflexivity)).
  rewrite (PatternFacts.octet_test (Regex.lit "168") (fun n => (n =? 168)%nat))
    by (assumption || (vm_compute; reflexivity)).
  rewrite (PatternFacts.octet_test (Regex.lit "169") (fun n => (n =? 169)%nat))
    by (assumption || (vm_compute; reflexivity)).
  rewrite (PatternFacts.octet_test (Regex.lit "254") (fun n => (n =? 254)%nat))
    by (assumption || (vm_compute; reflexivity)).
  rewrite (PatternFacts.octet_test (Regex.lit "127") (fun n => (n =? 127)%nat))
    by (assumption || (vm_compute; reflexivity)).
  rewrite (PatternFacts.octet_test _
             (fun n => (16 <=? n)%nat && (n <=? 31)%nat))
    by (assumption || (vm_compute; reflexivity)).
  unfold IPv4.reserved.
  destruct (a =? 10)%nat, (a =? 172)%nat, (a =? 192)%nat, (a =? 169)%nat,
    (a =? 127)%nat, (16 <=? b)%nat, (b <=? 31)%nat, (b =? 168)%nat,
    (b =? 254)%nat; reflexivity.
Qed.

Lemma isPrivateIP_exact_on_addresses_witness :
  isPrivateIP (IPv4.dotted 172 32 0 1) = false.
Proof.
  apply (isPrivateIP_exact_on_addresses 172 32 0 1);
    unfold IPv4.is_octet; lia.
Defined.

Lemma isPrivateIP_alphabet (ip : string) :
  isPrivateIP ip = true ->
  Alphabet.all_chars Alphabet.digit_or_dot ip = true.
Proof.
  unfold isPrivateIP. intros H. apply existsb_exists in H.
  destruct H as (r & Hin & Ht). apply RegexFacts.test_accepts in Ht.
  assert (HP : Alphabet.consumes_only Alphabet.digit_or_dot r = true).
  { unfold PRIVATE_IP_RANGES in Hin. simpl in Hin.
    destruct Hin as [<-|[<-|[<-|[<-|[<-|[]]]]]]; vm_compute; reflexivity. }
  destruct (PatternFacts.run_inv _ _ HP _ _ Ht) as (p & E & _ & C).
  rewrite append_empty_r in E. now subst.
Qed.

(** [isPrivateIP] matches only strings made of decimal digits and dots: a
    hostname with any other character is never taken for a private IPv4
    address. *)
Theorem isPrivateIP_digits_and_dots (ip : string) :
  isPrivateIP ip = true ->
  Alphabet.all_chars Alphabet.digit_or_dot ip = true.
Proof. exact (isPrivateIP_alphabet ip). Qed.

Lemma isPrivateIP_digits_and_dots_witness :
  isPrivateIP "10.20.30.40" = true /\
  Alphabet.all_chars Alphabet.digit_or_dot "10.20.30.40" = true.
Proof.
  split; [reflexivity|].
  apply (isPrivateIP_digits_and_dots "10.20.30.40" eq_refl).
Defined.

(** An http or https URL whose lower-cased hostname is not a blocked name,
    does not start with a bracket and has a character other than digits
    and dots (every domain name but [localhost]) is accepted, and the
    result is the [href] of the parsed URL. *)
Theorem validateUrl_accepts_names
    (parseURL : string -> option URL) (s : string) (u : URL) :
  s <> "" ->
  parseURL s = Some u ->
  protocol u = "http:" \/ protocol u = "https:" ->
  ~ In (JS.toLowerCase (hostname u)) BLOCKED_HOSTNAMES ->
  JS.startsWith (JS.toLowerCase (hostname u)) "[" = false ->
  Alphabet.all_chars Alphabet.digit_or_dot (JS.toLowerCase (hostname u))
    = false ->
  validateUrl parseURL (JS.Str s) = Valid (href u).
Proof.
  intros Hs Hp Hproto Hb Hbr Hname. unfold validateUrl.
  apply String.eqb_neq in Hs. unfold JS.truthy_string. rewrite Hs. cbn [negb].
  rewrite Hp.
  replace (JS.array_includes ["http:"; "https:"] (protocol u)) with true
    by (symmetry; apply array_includes_In;
        destruct Hproto as [-> | ->]; simpl; tauto).
  cbn [negb].
  destruct (JS.array_includes BLOCKED_HOSTNAMES (JS.toLowerCase (hostname u)))
    eqn:E; [apply array_includes_In in E; contradiction|].
  destruct (isPrivateIP (JS.toLowerCase (hostname u))) eqn:Hi.
  { apply isPrivateIP_alphabet in Hi. congruence. }
  unfold isPrivateIPv6. rewrite Hbr. reflexivity.
Qed.

Lemma validateUrl_accepts_names_witness :
  validateUrl Samples.parseURL (JS.Str "HTTP://Example.COM/a b")
  = Valid "http://example.com/a%20b".
Proof.
  apply (validateUrl_accepts_names Samples.parseURL "HTTP://Example.COM/a b"
           (mkURL "http:" "example.com" "http://example.com/a%20b"));
    first [ reflexivity | discriminate | now left
          | simpl; intros [H|[H|[H|[H|[]]]]]; discriminate ].
Defined.

(** An http or https URL whose lower-cased hostname is a bracketed literal
    [[x]] is rejected as a blocked host when [x] is [::1], rejected as a
    private IPv6 address when [x] starts with [fe80:], [fc] or [fd], and
    accepted in every other case, whatever address [x] denotes. *)
Theorem validateUrl_bracketed
    (parseURL : string -> option URL) (s x : string) (u : URL) :
  s <> "" ->
  parseURL s = Some u ->
  protocol u = "http:" \/ protocol u = "https:" ->
  JS.toLowerCase (hostname u) = "[" ++ x ++ "]" ->
  validateUrl parseURL (JS.Str s) =
  if String.eqb x "::1" then Invalid ERR_BLOCKED
  else if JS.startsWith x "fe80:" || JS.startsWith x "fc"
          || JS.startsWith x "fd"
       then Invalid ERR_PRIVATE_IPV6
       else Valid (href u).
Proof.
  intros Hs Hp Hproto Hh. unfold validateUrl.
  apply String.eqb_neq in Hs. unfold JS.truthy_string. rewrite Hs. cbn [negb].
  rewrite Hp.
  replace (JS.array_includes ["http:"; "https:"] (protocol u)) with true
    by (symmetry; apply array_includes_In;
        destruct Hproto as [-> | ->]; simpl; tauto).
  cbn [negb]. rewrite Hh.
  assert (Hb : JS.array_includes BLOCKED_HOSTNAMES ("[" ++ x ++ "]")
               = String.eqb x "::1").
  { apply eq_true_iff_eq. rewrite array_includes_In, String.eqb_eq.
    simpl. split.
    - intros [E|[E|[E|[E|[]]]]]; try discriminate.
      injection E as E.
      apply (append_cancel_r x "::1" "]"). now symmetry.
    - intros ->. tauto. }
  rewrite Hb. destruct (String.eqb x "::1") eqn:E1; [reflexivity|].
  destruct (isPrivateIP ("[" ++ x ++ "]")) eqn:Hi.
  { apply isPrivateIP_alphabet in Hi. discriminate. }
  rewrite isPrivateIPv6_bracketed, E1. cbn [orb].
  now destruct (JS.startsWith x "fe80:"), (JS.startsWith x "fc"),
    (JS.startsWith x "fd").
Qed.

Lemma validateUrl_bracketed_witness :
  validateUrl MappedSamples.parseURL (JS.Str "http://[::ffff:10.0.0.1]/")
  = Valid "http://[::ffff:a00:1]/".
Proof.
  apply (validateUrl_bracketed MappedSamples.parseURL
           "http://[::ffff:10.0.0.1]/" "::ffff:a00:1"
           (mkURL "http:" "[::ffff:a00:1]" "http://[::ffff:a00:1]/"));
    first [ reflexivity | discriminate | now left ].
Defined.

(* ====================================================================== *)
(** * The engine calls of a capture *)
(* ====================================================================== *)

Ltac run_capture :=
  unfold captureScreenshot, try_finally, bind, set_browser, get_browser,
    ret, invoke, init, capture_script, NAVIGATION_TIMEOUT, SCREENSHOT_TIMEOUT;
  cbn.

Ltac case_engine eng :=
  match goal with
  | |- context [match throws eng ?c with _ => _ end] =>
      let E := fresh "E" in destruct (throws eng c) eqn:E; cbn
  end.

(** The calls of a capture are an initial part of the scripted sequence
    (launch, context, page, the two timeouts, navigation, capture),
    followed by the close when the launch succeeded: a call is made only
    if every call before it succeeded, and the sequence is cut short only
    by a call that throws. *)
Theorem capture_calls_prefix
    (eng : engine) (url : string) (width height : JS.num) (fullPage : bool) :
  let script := capture_script url width height fullPage in
  let st := fst (captureScreenshot eng url width height fullPage init) in
  exists n,
    1 <= n <= 7 /\
    calls st = (firstn n script
                ++ match throws eng Launch with
                   | None => [Close]
                   | Some _ => []
                   end)%list /\
    (forall i, S i < n -> throws eng (nth i script Launch) = None) /\
    (n < 7 -> throws eng (nth (n - 1) script Launch) <> None).
Proof.
  run_capture.
  repeat case_engine eng;
    match goal with
    | E : throws eng Launch = Some _ |- _ => exists 1
    | E : throws eng (NewContext _ _) = Some _ |- _ => exists 2
    | E : throws eng NewPage = Some _ |- _ => exists 3
    | E : throws eng (SetDefaultNavigationTimeout _) = Some _ |- _ => exists 4
    | E : throws eng (SetDefaultTimeout _) = Some _ |- _ => exists 5
    | E : throws eng (Goto _ _) = Some _ |- _ => exists 6
    | _ => exists 7
    end;
    (split; [lia|]); (split; [reflexivity|]); (split; [|cbn; intros; try lia; congruence]);
    intros i Hi;
    do 7 (destruct i as [|i]; [first [lia | cbn; assumption]|]); lia.
Qed.

(** The capture returns an image exactly when each of the eight engine
    calls succeeds; the image is then the one the engine produced, and the
    calls are the scripted seven followed by the close. *)
Theorem capture_returns_image_iff
    (eng : engine) (url : string) (width height : JS.num) (fullPage : bool) :
  let script := (capture_script url width height fullPage ++ [Close])%list in
  let run := captureScreenshot eng url width height fullPage init in
  ((exists image, snd run = inr image) <->
   (forall c, In c script -> throws eng c = None)) /\
  (forall image, snd run = inr image ->
     image = png eng /\ calls (fst run) = script).
Proof.
  run_capture.
  repeat case_engine eng; (split; [split|]); first
    [ intros (image & H); discriminate
    | intros _ c Hc; cbn in Hc;
      repeat (destruct Hc as [<-|Hc]; [assumption|]); contradiction
    | intros _; eexists; reflexivity
    | intros image H; first [discriminate | injection H as <-; now split]
    | intros H;
      match goal with
      | E : throws eng ?c = Some _ |- _ =>
          rewrite (H c) in E
            by (cbn; repeat (first [left; reflexivity | right]));
          discriminate
      end ].
Qed.

(** When the launch succeeds and the close throws, the capture fails with
    the exception of the close, even if the image had been captured. *)
Theorem close_failure_masks_result
    (eng : engine) (url : string) (width height : JS.num) (fullPage : bool)
    (e : string) :
  throws eng Launch = None ->
  throws eng Close = Some e ->
  snd (captureScreenshot eng url width height fullPage init) = inl e.
Proof.
  intros HL HC. run_capture. rewrite HL. cbn.
  repeat case_engine eng; try congruence.
Qed.

Lemma close_failure_masks_result_witness :
  snd (captureScreenshot (Samples.failing_at is_close "Target closed")
         "https://example.com/" (JS.Int 1366) (JS.Int 768) false init)
  = inl "Target closed".
Proof.
  apply (close_failure_masks_result
           (Samples.failing_at is_close "Target closed")
           "https://example.com/" (JS.Int 1366) (JS.Int 768) false
           "Target closed"); reflexivity.
Defined.

(** Every engine call of a capture is one of the scripted calls, with the
    URL, viewport and page flag that were passed in, or the close. *)
Lemma capture_calls_scripted
    (eng : engine) (url : string) (width height : JS.num) (fullPage : bool)
    (c : call) :
  In c (calls (fst (captureScreenshot eng url width height fullPage init))) ->
  In c (capture_script url width height fullPage ++ [Close])%list.
Proof.
  run_capture.
  repeat case_engine eng; intros H;
    repeat (destruct H as [<-|H];
            [repeat (first [left; reflexivity | right])|]);
    contradiction.
Qed.

(* ====================================================================== *)
(** * What the routes ask of the engine *)
(* ====================================================================== *)

Lemma clamp_bounds (lo hi x : Z) :
  (lo <= hi)%Z -> (lo <= ViewportPolicy.clamp lo hi x <= hi)%Z.
Proof.
  intros H. unfold ViewportPolicy.clamp.
  destruct (Z.ltb_spec x lo); [lia|]. destruct (Z.ltb_spec hi x); lia.
Qed.

Lemma validateViewport_bounds (w h : JS.value) :
  exists x y, validateViewport w h = mkViewport (JS.Int x) (JS.Int y) /\
              (200 <= x <= 3000)%Z /\ (200 <= y <= 3000)%Z.
Proof.
  rewrite validateViewport_normalize. eexists; eexists.
  split; [reflexivity|].
  unfold ViewportPolicy.normalize, ViewportPolicy.axis. cbn [fst snd option_map].
  split; apply clamp_bounds; lia.
Qed.

(** On [/screenshot], in both revisions, every call made on the engine
    belongs to the capture of the URL that [validateUrl] returned for the
    [url] parameter, with a viewport of two integers between 200 and 3000:
    the engine is never driven to an unvalidated URL nor with a viewport
    out of bounds. *)
Theorem screenshot_route_engine_inputs
    (parseURL : string -> option URL) (eng : engine)
    (query : Http.query_map) (c : call) :
  In c (engine_calls (IndexSimple.screenshot_route parseURL eng query)) \/
  In c (engine_calls (Index.screenshot_route parseURL eng query)) ->
  exists url x y,
    validateUrl parseURL (query "url") = Valid url /\
    (200 <= x <= 3000)%Z /\ (200 <= y <= 3000)%Z /\
    In c (capture_script url (JS.Int x) (JS.Int y)
            (isFullPage (query "fullPage")) ++ [Close])%list.
Proof.
  unfold IndexSimple.screenshot_route, Index.screenshot_route.
  destruct (validateUrl parseURL (query "url")) as [err|url];
    [intros [[]|[]]|].
  destruct (validateViewport_bounds (query "w") (query "h"))
    as (x & y & -> & Hx & Hy). cbn [width height].
  intros H. exists url, x, y. repeat (split; [assumption || reflexivity|]).
  apply (capture_calls_scripted eng).
  destruct (captureScreenshot eng url (JS.Int x) (JS.Int y)
              (isFullPage (query "fullPage")) init) as [st [m|img]];
    cbn [engine_calls fst] in *; tauto.
Qed.

Lemma screenshot_route_engine_inputs_witness :
  exists url x y,
    validateUrl Samples.parseURL
      (Samples.query_of [("url", "https://example.com"); ("w", "9999")] "url")
    = Valid url /\
    (200 <= x <= 3000)%Z /\ (200 <= y <= 3000)%Z /\
    In (NewContext (JS.Int 3000) (JS.Int 768))
       (capture_script url (JS.Int x) (JS.Int y)
          (isFullPage
             (Samples.query_of [("url", "https://example.com"); ("w", "9999")]
                               "fullPage")) ++ [Close])%list.
Proof.
  apply (screenshot_route_engine_inputs Samples.parseURL Samples.healthy
           (Samples.query_of [("url", "https://example.com"); ("w", "9999")])
           (NewContext (JS.Int 3000) (JS.Int 768))).
  left. cbn. tauto.
Defined.

Lemma limits_verdict (subscription : string) :
  if JS.array_includes Limits.Object_prototype subscription
  then Limits.getSubscriptionLimits subscription
         = Limits.Inherited subscription /\
       exists e, Limits.addRapidAPIHeaders subscription = inl e
  else exists tier,
         In tier tiers /\
         Limits.getSubscriptionLimits subscription = Limits.Record_ tier /\
         Limits.addRapidAPIHeaders subscription
         = inr [("X-RateLimit-Limit",
                 Http.num_toString (JS.Int (Limits.requestsPerMonth tier)))].
Proof.
  destruct (JS.array_includes Limits.Object_prototype subscription) eqn:E.
  - apply array_includes_In in E. simpl in E.
    repeat (destruct E as [<-|E]; [split; [reflexivity | eexists; reflexivity]|]).
    contradiction.
  - assert (Hn : ~ In subscription Limits.Object_prototype).
    { intros H. apply array_includes_In in H. congruence. }
    unfold Limits.addRapidAPIHeaders.
    rewrite (getSubscriptionLimits_own_or_basic subscription Hn).
    eexists. split; [|split; reflexivity].
    unfold tiers.
    destruct (String.eqb subscription "BASIC"); [simpl; tauto|].
    destruct (String.eqb subscription "PRO"); [simpl; tauto|].
    destruct (String.eqb subscription "ULTRA"); [simpl; tauto|].
    destruct (String.eqb subscription "MEGA"); simpl; tauto.
Qed.

(** The lookup of the limits decides on the name alone: a name of a member
    of [Object.prototype] yields that member and makes [addRapidAPIHeaders]
    throw; every other string yields one of the four tier records, whose
    monthly quota becomes the rate-limit header. *)
Theorem getSubscriptionLimits_verdict (subscription : string) :
  if JS.array_includes Limits.Object_prototype subscription
  then Limits.getSubscriptionLimits subscription
         = Limits.Inherited subscription /\
       exists e, Limits.addRapidAPIHeaders subscription = inl e
  else exists tier,
         In tier tiers /\
         Limits.getSubscriptionLimits subscription = Limits.Record_ tier /\
         Limits.addRapidAPIHeaders subscription
         = inr [("X-RateLimit-Limit",
                 Http.num_toString (JS.Int (Limits.requestsPerMonth tier)))].
Proof. exact (limits_verdict subscription). Qed.

Lemma v1_viewport_bounds (tier : Limits.limits) (w h : JS.value) :
  In tier tiers ->
  exists x y,
    Index.v1_viewport (Limits.Record_ tier) w h = (JS.Int x, JS.Int y) /\
    (200 <= x <= Limits.maxViewportWidth tier)%Z /\
    (200 <= y <= Limits.maxViewportHeight tier)%Z.
Proof.
  intros Ht. unfold Index.v1_viewport.
  cbn [Limits.maxViewportWidth_of Limits.maxViewportHeight_of].
  assert (Hnum : forall n d, exists z, JS.num_or n (JS.Int d) = JS.Int z).
  { intros [|z] d; [now exists d|]. unfold JS.num_or.
    destruct (z =? 0)%Z; eexists; reflexivity. }
  destruct (Hnum (JS.parseInt10 w) 1366%Z) as [zw ->].
  destruct (Hnum (JS.parseInt10 h) 768%Z) as [zh ->].
  cbn [JS.Math_min JS.Math_max]. eexists; eexists. split; [reflexivity|].
  unfold tiers in Ht.
  destruct Ht as [<-|[<-|[<-|[<-|[]]]]]; cbn; lia.
Qed.

(** On [/v1/screenshot] every call made on the engine belongs to the
    capture of the URL that [validateUrl] returned, with a viewport of two
    integers between 200 and the maxima of the caller's tier record (at
    most 3000), and only for a request whose format was accepted. *)
Theorem v1_screenshot_engine_inputs
    (parseURL : string -> option URL) (eng : engine) (duration : Z)
    (info : rapidapi) (query : Http.query_map) (c : call) :
  In c (engine_calls (Index.v1_screenshot parseURL eng duration info query)) ->
  exists url tier x y,
    validateUrl parseURL (query "url") = Valid url /\
    In tier tiers /\
    Limits.getSubscriptionLimits (subscription info) = Limits.Record_ tier /\
    (200 <= x <= Limits.maxViewportWidth tier)%Z /\
    (200 <= y <= Limits.maxViewportHeight tier)%Z /\
    (Limits.maxViewportWidth tier <= 3000)%Z /\
    (Limits.maxViewportHeight tier <= 3000)%Z /\
    Index.bad_format (query "format") = false /\
    In c (capture_script url (JS.Int x) (JS.Int y)
            (Index.full_page_flag (query "full_page")) ++ [Close])%list.
Proof.
  unfold Index.v1_screenshot.
  pose proof (limits_verdict (subscription info)) as V.
  destruct (JS.array_includes Limits.Object_prototype (subscription info)).
  { destruct V as (_ & e & ->). intros []. }
  destruct V as (tier & Ht & Hl & ->).
  destruct (validateUrl parseURL (query "url")) as [err|url]; [intros []|].
  rewrite Hl.
  destruct (v1_viewport_bounds tier (query "width") (query "height") Ht)
    as (x & y & -> & Hx & Hy).
  destruct (Index.bad_format (query "format")) eqn:Hf; [intros []|].
  intros H. exists url, tier, x, y.
  repeat (split; [assumption || reflexivity || idtac|]).
  - unfold tiers in Ht. destruct Ht as [<-|[<-|[<-|[<-|[]]]]]; cbn; lia.
  - unfold tiers in Ht. destruct Ht as [<-|[<-|[<-|[<-|[]]]]]; cbn; lia.
  - apply (capture_calls_scripted eng).
    destruct (captureScreenshot eng url (JS.Int x) (JS.Int y)
                (Index.full_page_flag (query "full_page")) init)
      as [st [m|img]]; [destruct (Index.classify m)|];
      cbn [engine_calls fst] in *; exact H.
Qed.

Lemma v1_screenshot_engine_inputs_witness :
  exists url tier x y,
    validateUrl Samples.parseURL
      (Samples.query_of [("url", "https://example.com"); ("width", "9999")]
                        "url") = Valid url /\
    In tier tiers /\
    Limits.getSubscriptionLimits "PRO" = Limits.Record_ tier /\
    (200 <= x <= Limits.maxViewportWidth tier)%Z /\
    (200 <= y <= Limits.maxViewportHeight tier)%Z /\
    (Limits.maxViewportWidth tier <= 3000)%Z /\
    (Limits.maxViewportHeight tier <= 3000)%Z /\
    Index.bad_format
      (Samples.query_of [("url", "https://example.com"); ("width", "9999")]
                        "format") = false /\
    In (NewContext (JS.Int 2560) (JS.Int 768))
       (capture_script url (JS.Int x) (JS.Int y)
          (Index.full_page_flag
             (Samples.query_of
                [("url", "https://example.com"); ("width", "9999")]
                "full_page")) ++ [Close])%list.
Proof.
  apply (v1_screenshot_engine_inputs Samples.parseURL Samples.healthy 0%Z
           (mkRapidapi (Some "k") None (Some "u") "PRO")
           (Samples.query_of [("url", "https://example.com");
                              ("width", "9999")])
           (NewContext (JS.Int 2560) (JS.Int 768))).
  cbn. tauto.
Defined.

(** The handler of [/v1/screenshot] ends without sending a response
    exactly when the subscription string names a member of
    [Object.prototype]; it then makes no engine call.  Every response it
    does send has status 200, 400, 500 or 504. *)
Theorem v1_screenshot_responds_iff
    (parseURL : string -> option URL) (eng : engine) (duration : Z)
    (info : rapidapi) (query : Http.query_map) :
  let out := Index.v1_screenshot parseURL eng duration info query in
  (response out = None <->
   In (subscription info) Limits.Object_prototype) /\
  (response out = None -> engine_calls out = []) /\
  (forall r, response out = Some r ->
     In (Http.status r) [200%Z; 400%Z; 500%Z; 504%Z]).
Proof.
  cbv zeta. unfold Index.v1_screenshot.
  pose proof (limits_verdict (subscription info)) as V.
  rewrite <- array_includes_In.
  destruct (JS.array_includes Limits.Object_prototype (subscription info)).
  { destruct V as (_ & e & ->). cbn.
    repeat split; trivial; discriminate. }
  destruct V as (tier & Ht & Hl & ->).
  destruct (validateUrl parseURL (query "url")) as [err|url].
  { cbn. repeat split; try discriminate.
    intros r H; injection H as <-; cbn; tauto. }
  destruct (Index.v1_viewport _ _ _) as [w h].
  destruct (Index.bad_format (query "format")).
  { cbn. repeat split; try discriminate.
    intros r H; injection H as <-; cbn; tauto. }
  destruct (captureScreenshot eng url w h _ init) as [st [m|img]].
  - unfold Index.classify.
    destruct (_ || _); [|destruct (JS.includes m _);
                          [|destruct (JS.includes m _)]];
      cbn; (repeat split; try discriminate);
      intros r H; injection H as <-; cbn; tauto.
  - cbn. repeat split; try discriminate.
    intros r H; injection H as <-; cbn; tauto.
Qed.

(* ====================================================================== *)
(** * Authentication before capture *)
(* ====================================================================== *)

Lemma set_and_differs_false (secret : string) (h : option string) :
  secret <> "" ->
  set_and_differs (Some secret) h = false -> h = Some secret.
Proof.
  intros Hs H. unfold set_and_differs, JS.truthy_string in H.
  apply String.eqb_neq in Hs. rewrite Hs in H. cbn in H.
  destruct h as [x|]; [|discriminate]. cbn in H.
  apply negb_false_iff, String.eqb_eq in H. now subst.
Qed.

(** With a non-empty proxy secret configured, in both revisions of the
    middleware, the [/v1/screenshot] route makes an engine call only for a
    request whose [x-rapidapi-proxy-secret] header is exactly the
    configured secret. *)
Theorem engine_call_requires_secret
    (parseURL : string -> option URL) (eng : engine) (duration : Z)
    (secret : string) (host : option string)
    (headers : Http.header_map) (query : Http.query_map) :
  secret <> "" ->
  engine_calls
    (Index.guarded (RapidapiStrict.validateRapidAPI (Some secret))
       (Index.v1_screenshot parseURL eng duration) headers query) <> [] \/
  engine_calls
    (Index.guarded (RapidapiOptional.validateRapidAPI (Some secret) host)
       (Index.v1_screenshot parseURL eng duration) headers query) <> [] ->
  headers "x-rapidapi-proxy-secret" = Some secret.
Proof.
  intros Hs H. unfold Index.guarded in H.
  destruct H as [H|H].
  - unfold RapidapiStrict.validateRapidAPI in H.
    destruct (negb (Http.truthy_header (Some secret)));
      [now elim H|].
    destruct (set_and_differs (Some secret)
                (headers "x-rapidapi-proxy-secret")) eqn:E;
      [now elim H|].
    now apply set_and_differs_false.
  - unfold RapidapiOptional.validateRapidAPI in H.
    destruct (negb (Http.truthy_header (headers "x-rapidapi-key")));
      [now elim H|].
    destruct (negb (Http.truthy_header (headers "x-rapidapi-host")));
      [now elim H|].
    destruct (set_and_differs host (headers "x-rapidapi-host"));
      [now elim H|].
    destruct (set_and_differs (Some secret)
                (headers "x-rapidapi-proxy-secret")) eqn:E;
      [now elim H|].
    now apply set_and_differs_false.
Qed.

Lemma engine_call_requires_secret_witness :
  Samples.headers_of [("x-rapidapi-proxy-secret", "s3cret");
                      ("x-rapidapi-subscription", "PRO")]
    "x-rapidapi-proxy-secret" = Some "s3cret".
Proof.
  apply (engine_call_requires_secret Samples.parseURL Samples.healthy 0%Z
           "s3cret" None
           (Samples.headers_of [("x-rapidapi-proxy-secret", "s3cret");
                                ("x-rapidapi-subscription", "PRO")])
           (Samples.query_of [("url", "https://example.com")])).
  - discriminate.
  - left. cbn. discriminate.
Defined.

(* ====================================================================== *)
(** * Viewports fed back *)
(* ====================================================================== *)

(** [parseInt] reads back the decimal form of every integer between 200
    and 3000. *)
Lemma parseInt10_reads_dimension (z : Z) :
  (200 <= z <= 3000)%Z ->
  JS.parseInt10 (JS.Str (Http.num_toString (JS.Int z))) = JS.Int z.
Proof.
  intros Hz.
  assert (H : forallb (fun k =>
            match JS.parseInt10
                    (JS.Str (Http.num_toString (JS.Int (200 + Z.of_nat k))))
            with
            | JS.Int v => (v =? 200 + Z.of_nat k)%Z
            | JS.NaN => false
            end) (seq 0 2801) = true) by (vm_compute; reflexivity).
  rewrite forallb_forall in H.
  specialize (H (Z.to_nat (z - 200))).
  replace (200 + Z.of_nat (Z.to_nat (z - 200)))%Z with z in H by lia.
  destruct (JS.parseInt10 _) as [|v].
  - discriminate H. apply in_seq. lia.
  - f_equal. apply Z.eqb_eq, H, in_seq. lia.
Qed.

(** [validateViewport] is idempotent: the dimensions it returns, written in
    decimal and passed in again, are returned unchanged. *)
Theorem validateViewport_idempotent (w h : JS.value) :
  let v := validateViewport w h in
  validateViewport (JS.Str (Http.num_toString (width v)))
                   (JS.Str (Http.num_toString (height v))) = v.
Proof.
  cbv zeta.
  destruct (validateViewport_bounds w h) as (x & y & -> & Hx & Hy).
  cbn [width height]. unfold validateViewport.
  rewrite !parseInt10_reads_dimension by assumption.
  unfold MIN_SIZE, MAX_SIZE. cbn [JS.isNaN JS.Math_min JS.Math_max].
  f_equal; f_equal; lia.
Qed.

(** Under the tiers whose maxima are 3000 (ULTRA and MEGA), the inline
    computation of [/v1/screenshot] returns the viewport of
    [validateViewport], provided neither dimension parses to zero. *)
Theorem v1_viewport_is_validateViewport
    (tier : Limits.limits) (w h : JS.value) :
  tier = Limits.ULTRA \/ tier = Limits.MEGA ->
  JS.parseInt10 w <> JS.Int 0 ->
  JS.parseInt10 h <> JS.Int 0 ->
  Index.v1_viewport (Limits.Record_ tier) w h
  = (width (validateViewport w h), height (validateViewport w h)).
Proof.
  intros Ht Hw Hh.
  rewrite v1_viewport_normalize, validateViewport_normalize;
    [ | destruct Ht as [-> | ->]; simpl; tauto | assumption | assumption ].
  cbn [width height].
  destruct Ht as [-> | ->]; reflexivity.
Qed.

Lemma v1_viewport_is_validateViewport_witness :
  Index.v1_viewport (Limits.Record_ Limits.ULTRA) (JS.Str "5000") JS.Undefined
  = (width (validateViewport (JS.Str "5000") JS.Undefined),
     height (validateViewport (JS.Str "5000") JS.Undefined)).
Proof.
  apply (v1_viewport_is_validateViewport Limits.ULTRA
           (JS.Str "5000") JS.Undefined);
    first [ now left | discriminate ].
Defined.

(* ====================================================================== *)
(** * End to end *)
(* ====================================================================== *)

Lemma reserved_invalid
    (parseURL : string -> option URL) (s : string) (u : URL)
    (a b c d : nat) :
  s <> "" ->
  parseURL s = Some u ->
  hostname u = IPv4.dotted a b c d ->
  IPv4.is_octet a -> IPv4.is_octet b -> IPv4.is_octet c -> IPv4.is_octet d ->
  IPv4.reserved a b c d = true ->
  exists e, validateUrl parseURL (JS.Str s) = Invalid e.
Proof.
  intros Hs Hp Hh Ha Hb Hc Hd Hr. unfold validateUrl.
  apply String.eqb_neq in Hs. unfold JS.truthy_string. rewrite Hs. cbn [negb].
  rewrite Hp.
  destruct (negb (JS.array_includes ["http:"; "https:"] (protocol u)));
    [eexists; reflexivity|].
  rewrite Hh, toLowerCase_dotted by assumption.
  destruct (JS.array_includes BLOCKED_HOSTNAMES (IPv4.dotted a b c d));
    [eexists; reflexivity|].
  rewrite reserved_isPrivateIP by assumption. eexists; reflexivity.
Qed.

(** A request whose [url] parameter parses to a URL with a canonical
    dotted-decimal hostname in 10/8, 172.16/12, 192.168/16, 169.254/16 or
    127/8 never reaches the engine, on any of the three capture routes and
    under any scheme; both revisions of [/screenshot] answer it with status
    400. *)
Theorem reserved_target_never_rendered
    (parseURL : string -> option URL) (eng : engine) (duration : Z)
    (info : rapidapi) (query : Http.query_map)
    (s : string) (u : URL) (a b c d : nat) :
  query "url" = JS.Str s ->
  s <> "" ->
  parseURL s = Some u ->
  hostname u = IPv4.dotted a b c d ->
  IPv4.is_octet a -> IPv4.is_octet b -> IPv4.is_octet c -> IPv4.is_octet d ->
  IPv4.reserved a b c d = true ->
  engine_calls (IndexSimple.screenshot_route parseURL eng query) = [] /\
  engine_calls (Index.screenshot_route parseURL eng query) = [] /\
  engine_calls (Index.v1_screenshot parseURL eng duration info query) = [] /\
  option_map Http.status
    (response (IndexSimple.screenshot_route parseURL eng query)) = Some 400%Z /\
  option_map Http.status
    (response (Index.screenshot_route parseURL eng query)) = Some 400%Z.
Proof.
  intros Hq Hs Hp Hh Ha Hb Hc Hd Hr.
  destruct (reserved_invalid parseURL s u a b c d Hs Hp Hh Ha Hb Hc Hd Hr)
    as [e He].
  unfold IndexSimple.screenshot_route, Index.screenshot_route,
    Index.v1_screenshot.
  rewrite Hq, He.
  destruct (Limits.addRapidAPIHeaders (subscription info));
    repeat split; reflexivity.
Qed.

Lemma reserved_target_never_rendered_witness :
  engine_calls
    (Index.v1_screenshot Samples.parseURL Samples.healthy 0%Z
       (mkRapidapi (Some "k") None (Some "u") "MEGA")
       (Samples.query_of [("url", "http://10.1.2.3/")])) = [].
Proof.
  apply (reserved_target_never_rendered Samples.parseURL Samples.healthy 0%Z
           (mkRapidapi (Some "k") None (Some "u") "MEGA")
           (Samples.query_of [("url", "http://10.1.2.3/")])
           "http://10.1.2.3/"
           (mkURL "http:" "10.1.2.3" "http://10.1.2.3/") 10 1 2 3);
    first [ reflexivity | discriminate | unfold IPv4.is_octet; lia ].
Defined.

(** On [/v1/screenshot], for a request that passes validation under a tier
    record, when the engine works up to the navigation, the navigation
    throws a message that contains "Timeout" and the close succeeds, the
    answer is status 504 with code TIMEOUT, the message as details, and no
    capture is attempted. *)
Theorem v1_navigation_timeout_is_504
    (parseURL : string -> option URL) (eng : engine) (duration : Z)
    (info : rapidapi) (query : Http.query_map)
    (url message : string) (rate : list (string * string)) :
  Limits.addRapidAPIHeaders (subscription info) = inr rate ->
  validateUrl parseURL (query "url") = Valid url ->
  Index.bad_format (query "format") = false ->
  (forall c, In c [Launch; NewPage;
                   SetDefaultNavigationTimeout NAVIGATION_TIMEOUT;
                   SetDefaultTimeout SCREENSHOT_TIMEOUT; Close] ->
             throws eng c = None) ->
  (forall w h, throws eng (NewContext w h) = None) ->
  throws eng (Goto url NAVIGATION_TIMEOUT) = Some message ->
  occurs "Timeout" message ->
  let out := Index.v1_screenshot parseURL eng duration info query in
  response out
  = Some (Http.mkResponse 504 rate
            (Http.ApiErrorJson "TIMEOUT" "Failed to capture screenshot"
               (Some message))) /\
  (forall fp t, ~ In (TakeScreenshot fp t) (engine_calls out)).
Proof.
  intros Hrate Hurl Hfmt Hok Hctx Hgoto Hocc. cbv zeta.
  unfold Index.v1_screenshot. rewrite Hrate, Hurl.
  destruct (Index.v1_viewport _ _ _) as [w h]. rewrite Hfmt.
  unfold NAVIGATION_TIMEOUT, SCREENSHOT_TIMEOUT in Hok, Hgoto.
  run_capture.
  rewrite (Hok Launch) by (simpl; tauto). cbn.
  rewrite Hctx. cbn.
  rewrite (Hok NewPage) by (simpl; tauto). cbn.
  rewrite (Hok (SetDefaultNavigationTimeout 30000)) by (simpl; tauto). cbn.
  rewrite (Hok (SetDefaultTimeout 30000)) by (simpl; tauto). cbn.
  rewrite Hgoto. cbn.
  rewrite (Hok Close) by (simpl; tauto). cbn.
  unfold Index.classify.
  apply includes_occurs in Hocc. rewrite Hocc, orb_true_r. cbn.
  split; [reflexivity|].
  intros fp t H.
  repeat (destruct H as [H|H]; [discriminate H|]). contradiction.
Qed.

Lemma v1_navigation_timeout_is_504_witness :
  response
    (Index.v1_screenshot Samples.parseURL
       (Samples.failing_at Samples.is_goto
          "page.goto: Timeout 30000ms exceeded.")
       0%Z (mkRapidapi (Some "k") None (Some "u") "BASIC")
       (Samples.query_of [("url", "https://example.com")]))
  = Some (Http.mkResponse 504 [("X-RateLimit-Limit", "100")]
            (Http.ApiErrorJson "TIMEOUT" "Failed to capture screenshot"
               (Some "page.goto: Timeout 30000ms exceeded."))).
Proof.
  apply (v1_navigation_timeout_is_504 Samples.parseURL
           (Samples.failing_at Samples.is_goto
              "page.goto: Timeout 30000ms exceeded.")
           0%Z (mkRapidapi (Some "k") None (Some "u") "BASIC")
           (Samples.query_of [("url", "https://example.com")])
           "https://example.com/"
           "page.goto: Timeout 30000ms exceeded."
           [("X-RateLimit-Limit", "100")]);
    try reflexivity.
  - intros c Hc. simpl in Hc.
    repeat (destruct Hc as [<-|Hc]; [reflexivity|]). contradiction.
  - apply includes_occurs. reflexivity.
Defined.
